(** * AI News Summarizer: the POST /summarize request pipeline

    A shallow embedding of the two server programs of the repository,
    [src/server/index.js] (module [Server]) and [src/unnamed/part_000]
    (module [Part000]), and the properties of their request pipeline:
    validate, extract, summarize, translate, respond.

    Strings are byte strings holding UTF-8, which is how the literals of
    the JavaScript sources are stored.  The outside world (the HTTP
    fetch of axios, the DOM parser with Readability, the chat completion
    backend) is a record of oracles; every call to the network is logged,
    so that statements about which calls a request makes are statements
    about the log. *)

From Stdlib Require Import QArith.
From stdpp Require Import base option strings list gmap.

Open Scope string_scope.
Open Scope Z_scope.

(** ** JavaScript values the handlers rely on *)

Module Js.

(** The line feed written [\n] in the template literals. *)
Definition LF : string := String (Ascii.ascii_of_nat 10) "".

(** [!s] for a string: only the empty string is falsy. *)
Definition truthy_string (s : string) : bool :=
  match s with
  | EmptyString => false
  | String _ _ => true
  end.

(** The white space and line terminator code points that
    [String.prototype.trim] strips (ECMAScript WhiteSpace and
    LineTerminator: TAB, LF, VT, FF, CR, SP, NBSP, the Unicode space
    separators, LS, PS and the byte order mark), each as its UTF-8 bytes. *)
Definition white_space : list (list nat) :=
  [ [9]; [10]; [11]; [12]; [13]; [32];
    [194; 160];
    [225; 154; 128];
    [226; 128; 128]; [226; 128; 129]; [226; 128; 130]; [226; 128; 131];
    [226; 128; 132]; [226; 128; 133]; [226; 128; 134]; [226; 128; 135];
    [226; 128; 136]; [226; 128; 137]; [226; 128; 138];
    [226; 128; 168]; [226; 128; 169]; [226; 128; 175];
    [226; 129; 159];
    [227; 128; 128];
    [239; 187; 191] ]%nat.

(** [strip_prefix p bs] is what is left of [bs] after its prefix [p]. *)
Fixpoint strip_prefix (p bs : list nat) : option (list nat) :=
  match p, bs with
  | [], _ => Some bs
  | _ :: _, [] => None
  | x :: p', b :: bs' => if Nat.eqb x b then strip_prefix p' bs' else None
  end.

Fixpoint strip_any (ps : list (list nat)) (bs : list nat) : option (list nat) :=
  match ps with
  | [] => None
  | p :: ps' =>
      match strip_prefix p bs with
      | Some rest => Some rest
      | None => strip_any ps' bs
      end
  end.

(** Strip white space from the front; every round removes at least one
    byte, so [length bs] rounds are enough. *)
Fixpoint trim_front (fuel : nat) (ps : list (list nat)) (bs : list nat) : list nat :=
  match fuel with
  | O => bs
  | S fuel' =>
      match strip_any ps bs with
      | Some rest => trim_front fuel' ps rest
      | None => bs
      end
  end.

Definition bytes_of_string (s : string) : list nat :=
  map Ascii.nat_of_ascii (String.list_ascii_of_string s).

Definition string_of_bytes (bs : list nat) : string :=
  String.string_of_list_ascii (map Ascii.ascii_of_nat bs).

(** [s.trim()]: white space is stripped at the front, and at the back by
    stripping the reversed patterns from the reversed bytes. *)
Definition trim (s : string) : string :=
  let bs := bytes_of_string s in
  let front := trim_front (length bs) white_space bs in
  let back := trim_front (length front) (map (@rev nat) white_space) (rev front) in
  string_of_bytes (rev back).

(** The result of a property read [o[k]] on an object literal [o]: an own
    property, a member inherited from [Object.prototype] (object literals
    have it on their prototype chain), or [undefined]. *)
Inductive member (A : Type) : Type :=
  | Own (a : A)
  | Inherited (name : string)
  | Undefined.
Arguments Own {A} a.
Arguments Inherited {A} name.
Arguments Undefined {A}.

(** The property names of [Object.prototype]. *)
Definition object_prototype : list string :=
  [ "constructor"; "__defineGetter__"; "__defineSetter__"; "hasOwnProperty";
    "__lookupGetter__"; "__lookupSetter__"; "isPrototypeOf";
    "propertyIsEnumerable"; "toString"; "valueOf"; "__proto__";
    "toLocaleString" ].

(** [o[k]] for a string key [k]. *)
Definition get {A : Type} (o : gmap string A) (k : string) : member A :=
  match o !! k with
  | Some a => Own a
  | None => if bool_decide (k ∈ object_prototype) then Inherited k else Undefined
  end.

(** [!!o[k]], where the own values are objects or strings with truthiness
    [own_truthy].  The inherited members are functions, and for
    [__proto__] the prototype object itself: all truthy. *)
Definition truthy {A : Type} (own_truthy : A → bool) (m : member A) : bool :=
  match m with
  | Own a => own_truthy a
  | Inherited _ => true
  | Undefined => false
  end.

(** [String(v)] of an inherited member: [Object.prototype] prints as a
    plain object, the functions print as native code under their name
    (the function stored under [constructor] is [Object]). *)
Definition inherited_to_string (name : string) : string :=
  if bool_decide (name = "__proto__") then "[object Object]"
  else if bool_decide (name = "constructor") then "function Object() { [native code] }"
  else "function " +:+ name +:+ "() { [native code] }".

(** [`${v}`] for a value that is a string or [undefined]. *)
Definition interpolate (v : option string) : string := default "undefined" v.

(** [`${v}`] for a value that is a string or [null]. *)
Definition interpolate_nullable (v : option string) : string := default "null" v.

End Js.

(** ** The outside world and the effects of a handler *)

(** One message of a chat completion request. *)
Record Message : Type := { role : string; content : string }.

(** The argument of [openai.chat.completions.create].  [max_tokens] is
    [None] when the property holds [undefined]. *)
Record ChatRequest : Type := {
  messages : list Message;
  model : string;
  temperature : Q;
  max_tokens : option Z }.

(** The network calls of a request, in the order they are made. *)
Inductive event : Type :=
  | AxiosGet (url : string)
  | ChatCreate (req : ChatRequest).

(** What the DOM parser and [Readability.parse] make of a document: an
    exception, [null] (no article found) or an article with its
    [textContent]. *)
Inductive parsed : Type :=
  | ParseThrows (message : string)
  | NoArticle
  | Article (textContent : string).

(** The collaborators of the server.  [axios_get] and
    [chat_completions_create] answer a call given the calls made before
    it: [inl message] is a rejected promise (network error, non-2xx
    status, authentication, quota, a response without the expected
    choice), [inr] the response data, for the chat backend the [content]
    of the first choice, which the API types as a string or [null]. *)
Record World : Type := {
  axios_get : list event → string → string + string;
  remove_unwanted : string → string;
  readability_parse : string → parsed;
  chat_completions_create : list event → ChatRequest → string + option string }.

(** The JSON bodies the server sends. *)
Inductive Payload : Type :=
  | Summary (summary : option string)
  | Error (error : string)
  | ErrorDetails (error details : string).

Record Response : Type := { status : Z; payload : Payload }.

(** The state a handler run threads: the network calls made so far and
    the responses written to [res]. *)
Record St : Type := { calls : list event; sent : list Response }.

Definition St0 : St := {| calls := []; sent := [] |}.

(** A computation returns a value or throws an [Error] with a message. *)
Inductive completion (A : Type) : Type :=
  | Normal (a : A)
  | Throw (message : string).
Arguments Normal {A} a.
Arguments Throw {A} message.

Definition M (A : Type) : Type := World → St → completion A * St.

Definition ret {A : Type} (a : A) : M A := fun _ st => (Normal a, st).

Definition throw {A : Type} (message : string) : M A := fun _ st => (Throw message, st).

Definition bind {A B : Type} (m : M A) (k : A → M B) : M B :=
  fun w st =>
    match m w st with
    | (Normal a, st') => k a w st'
    | (Throw e, st') => (Throw e, st')
    end.

(** [try { m } catch (error) { h error.message }] *)
Definition try_catch {A : Type} (m : M A) (h : string → M A) : M A :=
  fun w st =>
    match m w st with
    | (Normal a, st') => (Normal a, st')
    | (Throw e, st') => h e w st'
    end.

(** The monad operations under stdpp's notation [x ← m; k]. *)
#[global] Instance M_ret : MRet M := @ret.
#[global] Instance M_bind : MBind M := fun A B k m => bind m k.

Definition log_call (e : event) (st : St) : St :=
  {| calls := calls st ++ [e]; sent := sent st |}.

(** [await axios.get(url)], giving [response.data]. *)
Definition axios_get_data (url : string) : M string :=
  fun w st =>
    match axios_get w (calls st) url with
    | inl e => (Throw e, log_call (AxiosGet url) st)
    | inr data => (Normal data, log_call (AxiosGet url) st)
    end.

(** [await openai.chat.completions.create(req)] followed by the read of
    [completion.choices[0].message.content]. *)
Definition chat_content (req : ChatRequest) : M (option string) :=
  fun w st =>
    match chat_completions_create w (calls st) req with
    | inl e => (Throw e, log_call (ChatCreate req) st)
    | inr c => (Normal c, log_call (ChatCreate req) st)
    end.

(** [new Readability(new JSDOM(data).window.document).parse()] *)
Definition parse_document (data : string) : M (option string) :=
  fun w st =>
    match readability_parse w data with
    | ParseThrows e => (Throw e, st)
    | NoArticle => (Normal None, st)
    | Article t => (Normal (Some t), st)
    end.

(** The document after [unwantedElements.forEach(el => el.remove())]. *)
Definition without_unwanted (data : string) : M string :=
  fun w st => (Normal (remove_unwanted w data), st).

Definition write_response (r : Response) (st : St) : St :=
  {| calls := calls st; sent := sent st ++ [r] |}.

(** [res.status(code).json(body)] *)
Definition res_json (code : Z) (body : Payload) : M unit :=
  fun _ st => (Normal tt, write_response {| status := code; payload := body |} st).

(** A property read [m.prop] on the result of a registry lookup: the
    field of an own entry, [undefined] on an inherited member (functions
    and [Object.prototype] carry none of the registry fields), a
    [TypeError] on [undefined]. *)
Definition read_property {A V : Type} (m : Js.member A) (field : A → V) (prop : string) : M (option V) :=
  match m with
  | Js.Own a => mret (Some (field a))
  | Js.Inherited _ => mret None
  | Js.Undefined => throw ("Cannot read properties of undefined (reading '" +:+ prop +:+ "')")
  end.

(** [if (!v)] on a request field that is absent or a string: the value
    when it is truthy. *)
Definition truthy_field (v : option string) : option string :=
  match v with
  | Some s => if Js.truthy_string s then Some s else None
  | None => None
  end.

(** ** [src/unnamed/part_000]: summarize in English, then translate *)

Module Part000.

Record LanguageConfig : Type := {
  code : string;
  systemPrompt : string;
  translationPrompt : option string }.

(** [LANGUAGES.english]; [translationPrompt] is [null]. *)
Definition english : LanguageConfig :=
   {| code := "en";
      systemPrompt := "You are a professional news summarizer. Create concise, accurate summaries that capture the main points while maintaining context and key details. Format the summary in a clear, readable way with bullet points for key takeaways.";
      translationPrompt := None |}.

Definition LANGUAGES : gmap string LanguageConfig := list_to_map [
  ("english", english);
  ("bosnian",
   {| code := "bs";
      systemPrompt := "Vi ste profesionalni rezimator vijesti. Kreirajte sažete, precizne sažetke koji obuhvataju glavne tačke uz očuvanje konteksta i ključnih detalja. Formatirajte sažetak na jasan, čitljiv način sa tačkama za ključne zaključke.";
      translationPrompt := Some "Translate the following text to Bosnian/Serbian/Croatian (BSC), maintaining the bullet point format and ensuring the translation is natural and fluent:" |});
  ("german",
   {| code := "de";
      systemPrompt := "Sie sind ein professioneller Nachrichtenzusammenfasser. Erstellen Sie prägnante, genaue Zusammenfassungen, die die Hauptpunkte erfassen und dabei Kontext und wichtige Details beibehalten. Formatieren Sie die Zusammenfassung übersichtlich mit Aufzählungspunkten für die wichtigsten Erkenntnisse.";
      translationPrompt := Some "Translate the following text to German, maintaining the bullet point format and ensuring the translation is natural and fluent:" |});
  ("french",
   {| code := "fr";
      systemPrompt := "Vous êtes un résumeur professionnel d'actualités. Créez des résumés concis et précis qui capturent les points principaux tout en maintenant le contexte et les détails clés. Formatez le résumé de manière claire et lisible avec des puces pour les points essentiels.";
      translationPrompt := Some "Translate the following text to French, maintaining the bullet point format and ensuring the translation is natural and fluent:" |});
  ("spanish",
   {| code := "es";
      systemPrompt := "Eres un resumidor profesional de noticias. Crea resúmenes concisos y precisos que capturen los puntos principales mientras mantienes el contexto y los detalles clave. Formatea el resumen de manera clara y legible con viñetas para los puntos clave.";
      translationPrompt := Some "Translate the following text to Spanish, maintaining the bullet point format and ensuring the translation is natural and fluent:" |});
  ("italian",
   {| code := "it";
      systemPrompt := "Sei un riassuntore professionale di notizie. Crea riassunti concisi e accurati che catturino i punti principali mantenendo il contesto e i dettagli chiave. Formatta il riassunto in modo chiaro e leggibile con punti elenco per i punti chiave.";
      translationPrompt := Some "Translate the following text to Italian, maintaining the bullet point format and ensuring the translation is natural and fluent:" |});
  ("turkish",
   {| code := "tr";
      systemPrompt := "Profesyonel bir haber özetleyicisisiniz. Bağlamı ve önemli detayları korurken ana noktaları yakalayan özlü, doğru özetler oluşturun. Özeti, önemli noktalar için madde işaretleriyle net ve okunabilir bir şekilde biçimlendirin.";
      translationPrompt := Some "Translate the following text to Turkish, maintaining the bullet point format and ensuring the translation is natural and fluent:" |});
  ("chinese",
   {| code := "zh";
      systemPrompt := "您是一位专业的新闻摘要员。创建简洁、准确的摘要，在保持上下文和关键细节的同时捕捉要点。使用项目符号清晰、易读地格式化摘要以突出关键要点。";
      translationPrompt := Some "Translate the following text to Chinese (Simplified), maintaining the bullet point format and ensuring the translation is natural and fluent:" |});
  ("russian",
   {| code := "ru";
      systemPrompt := "Вы профессиональный составитель новостных сводок. Создавайте краткие, точные сводки, которые отражают основные моменты, сохраняя контекст и ключевые детали. Форматируйте сводку четко и разборчиво, используя маркированные пункты для ключевых моментов.";
      translationPrompt := Some "Translate the following text to Russian, maintaining the bullet point format and ensuring the translation is natural and fluent:" |});
  ("arabic",
   {| code := "ar";
      systemPrompt := "أنت ملخص أخبار محترف. قم بإنشاء ملخصات موجزة ودقيقة تلتقط النقاط الرئيسية مع الحفاظ على السياق والتفاصيل الأساسية. قم بتنسيق الملخص بطريقة واضحة وسهلة القراءة مع نقاط رئيسية للنقاط الأساسية.";
      translationPrompt := Some "Translate the following text to Arabic, maintaining the bullet point format and ensuring the translation is natural and fluent. Ensure proper right-to-left formatting:" |}) ].

Record LengthConfig : Type := { instruction : string; maxTokens : Z }.

Definition lengthConfigs : gmap string LengthConfig := list_to_map [
  ("short",
   {| instruction := "Create a very brief summary in 2-3 bullet points, focusing only on the most crucial information.";
      maxTokens := 200 |});
  ("medium",
   {| instruction := "Provide a balanced summary with 4-5 bullet points, covering the main points and key supporting details.";
      maxTokens := 350 |});
  ("detailed",
   {| instruction := "Create a comprehensive summary with 6-8 bullet points, including main points, supporting details, and relevant context.";
      maxTokens := 500 |}) ].

Definition extractArticleContent (url : string) : M string :=
  try_catch
    (data ← axios_get_data url;
     article ← parse_document data;
     mret (match article with
           | Some textContent => textContent
           | None => ""
           end))
    (λ _, throw "Failed to extract article content").

(** The request [translateText] sends for a translation prompt and a
    text. *)
Definition translation_request (prompt : string) (text : option string) : ChatRequest :=
  {| messages :=
       [ {| role := "system";
            content := "You are a professional translator. Provide accurate translations while maintaining the original format and style." |};
         {| role := "user";
            content := prompt +:+ Js.LF +:+ Js.LF +:+ Js.interpolate_nullable text |} ];
     model := "gpt-4-turbo-preview";
     temperature := 3 # 10;
     max_tokens := Some 1000 |}.

(** [text] is the content of a completion, a string or [null].  The test
    [!LANGUAGES[language].translationPrompt] holds when the prompt is
    [undefined], [null] or the empty string. *)
Definition translateText (text : option string) (language : string) : M (option string) :=
  prompt ← read_property (Js.get LANGUAGES language) translationPrompt "translationPrompt";
  match truthy_field (mjoin prompt) with
  | None => mret text
  | Some prompt =>
      try_catch
        (chat_content (translation_request prompt text))
        (λ _, throw "Failed to translate the summary")
  end.

(** The request of the summarization call. *)
Definition summary_request (language : string) (instruction : option string)
    (maxTokens : option Z) (articleContent : string) : ChatRequest :=
  {| messages :=
       [ {| role := "system";
            content :=
              if bool_decide (language = "english")
              then systemPrompt english
              else systemPrompt english +:+ Js.LF +:+ Js.LF +:+
                   "Generate the summary in English first, it will be translated afterward." |};
         {| role := "user";
            content := Js.interpolate instruction +:+ Js.LF +:+ Js.LF +:+
                       "Please summarize this news article:" +:+ Js.LF +:+ Js.LF +:+
                       articleContent |} ];
     model := "gpt-4-turbo-preview";
     temperature := 7 # 10;
     max_tokens := maxTokens |}.

(** The [try] block of the handler of [app.post('/summarize', ...)], on
    the parsed JSON body [req.body].  The fields the handler reads are
    absent or strings, as the API types them; the destructuring gives an
    absent [language] or [summaryLength] its default. *)
Definition summarize_try (body : gmap string string) : M unit :=
  let url := body !! "url" in
  let language := default "english" (body !! "language") in
  let summaryLength := default "medium" (body !! "summaryLength") in
  match truthy_field url with
  | None => res_json 400 (Error "URL is required")
  | Some url =>
      if negb (Js.truthy (λ _, true) (Js.get LANGUAGES language))
      then res_json 400 (Error "Invalid language selected")
      else if negb (Js.truthy (λ _, true) (Js.get lengthConfigs summaryLength))
      then res_json 400 (Error "Invalid summary length selected")
      else
        articleContent ← extractArticleContent url;
        if negb (Js.truthy_string articleContent)
        then res_json 400 (Error "Could not extract article content")
        else
          instruction ← read_property (Js.get lengthConfigs summaryLength) instruction "instruction";
          maxTokens ← read_property (Js.get lengthConfigs summaryLength) maxTokens "maxTokens";
          englishSummary ← chat_content (summary_request language instruction maxTokens articleContent);
          finalSummary ← translateText englishSummary language;
          res_json 200 (Summary finalSummary)
  end.

(** The handler: the [try] block and its [catch]. *)
Definition summarize (body : gmap string string) : M unit :=
  try_catch (summarize_try body)
    (λ message, res_json 500 (ErrorDetails "Failed to generate summary" message)).

End Part000.

(** ** [src/server/index.js]: one call, prompted in the requested language *)

Module Server.

Definition LANGUAGE_PROMPTS : gmap string string := list_to_map [
  ("english", "Please provide a summary in English.");
  ("bosnian", "Molimo vas da sažetak dostavite na bosanskom/srpskom/hrvatskom jeziku.");
  ("german", "Bitte geben Sie eine Zusammenfassung auf Deutsch.");
  ("french", "Veuillez fournir un résumé en français.");
  ("spanish", "Por favor, proporcione un resumen en español.");
  ("italian", "Si prega di fornire un riassunto in italiano.");
  ("turkish", "Lütfen Türkçe bir özet sağlayın.");
  ("chinese", "请用中文提供摘要。");
  ("russian", "Пожалуйста, предоставьте краткое содержание на русском языке.");
  ("arabic", "يرجى تقديم ملخص باللغة العربية.") ].

Record LengthConfig : Type := { instruction : string; maxTokens : Z }.

Definition SUMMARY_LENGTHS : gmap string LengthConfig := list_to_map [
  ("short",
   {| instruction := "Provide a very concise summary with 2-3 key points.";
      maxTokens := 100 |});
  ("medium",
   {| instruction := "Provide a balanced summary with 4-5 key points.";
      maxTokens := 200 |});
  ("detailed",
   {| instruction := "Provide a comprehensive summary with 6-8 key points.";
      maxTokens := 400 |}) ].

Definition extractArticleContent (url : string) : M string :=
  try_catch
    (data ← axios_get_data url;
     document ← without_unwanted data;
     article ← parse_document document;
     match article with
     | Some textContent => mret (Js.trim textContent)
     | None => throw "Cannot read properties of null (reading 'textContent')"
     end)
    (λ _, throw "Failed to extract article content. Please check the URL and try again.").

(** [`${LANGUAGE_PROMPTS[language]}`] *)
Definition prompt_to_string (m : Js.member string) : string :=
  match m with
  | Js.Own s => s
  | Js.Inherited name => Js.inherited_to_string name
  | Js.Undefined => "undefined"
  end.

(** The request of the single model call. *)
Definition summary_request (language : string) (instruction : option string)
    (maxTokens : option Z) (articleContent : string) : ChatRequest :=
  {| messages :=
       [ {| role := "system";
            content := "You are a professional news summarizer. Provide clear, accurate, and well-structured summaries." |};
         {| role := "user";
            content := prompt_to_string (Js.get LANGUAGE_PROMPTS language) +:+ Js.LF +:+ Js.LF +:+
                       Js.interpolate instruction +:+ Js.LF +:+ Js.LF +:+
                       "Article content:" +:+ Js.LF +:+ articleContent |} ];
     model := "gpt-3.5-turbo";
     temperature := 7 # 10;
     max_tokens := maxTokens |}.

(** The [try] block of the handler of [app.post('/summarize', ...)], on
    the parsed JSON body [req.body].  The fields the handler reads are
    absent or strings, as the API types them; the destructuring gives an
    absent [language] or [summaryLength] its default. *)
Definition summarize_try (body : gmap string string) : M unit :=
  let url := body !! "url" in
  let language := default "english" (body !! "language") in
  let summaryLength := default "medium" (body !! "summaryLength") in
  match truthy_field url with
  | None => res_json 400 (Error "URL is required")
  | Some url =>
      if negb (Js.truthy Js.truthy_string (Js.get LANGUAGE_PROMPTS language))
      then res_json 400 (Error "Invalid language selected")
      else if negb (Js.truthy (λ _, true) (Js.get SUMMARY_LENGTHS summaryLength))
      then res_json 400 (Error "Invalid summary length selected")
      else
        articleContent ← extractArticleContent url;
        let lengthConfig := Js.get SUMMARY_LENGTHS summaryLength in
        instruction ← read_property lengthConfig instruction "instruction";
        maxTokens ← read_property lengthConfig maxTokens "maxTokens";
        content ← chat_content (summary_request language instruction maxTokens articleContent);
        match content with
        | None => throw "Cannot read properties of null (reading 'trim')"
        | Some content => res_json 200 (Summary (Some (Js.trim content)))
        end
  end.

(** The handler: the [try] block and its [catch]. *)
Definition summarize (body : gmap string string) : M unit :=
  try_catch (summarize_try body)
    (λ message, res_json 500 (ErrorDetails "Failed to generate summary" message)).

End Server.

(** ** Vocabulary of the statements *)

(** The pure reading of [m.prop] after validation: the field of an own
    entry, [undefined] otherwise. *)
Definition field_of {A V : Type} (m : Js.member A) (field : A → V) : option V :=
  match m with
  | Js.Own a => Some (field a)
  | _ => None
  end.

(** The three request fields after destructuring with the defaults. *)
Definition url_of (body : gmap string string) : option string := truthy_field (body !! "url").

Definition language_of (body : gmap string string) : string :=
  default "english" (body !! "language").

Definition summaryLength_of (body : gmap string string) : string :=
  default "medium" (body !! "summaryLength").

(** What the fetch and the parser give for a URL at the start of a
    request: [None] when the fetch is rejected, otherwise the parse of the
    document after the preprocessing [pre] of the variant. *)
Definition fetched_article (w : World) (pre : string → string) (url : string) : option parsed :=
  match axios_get w [] url with
  | inl _ => None
  | inr data => Some (readability_parse w (pre data))
  end.


(** Whether the world rejects the call [e] made after the calls
    [before]. *)
Definition rejected (w : World) (before : list event) (e : event) : bool :=
  match e with
  | ChatCreate req =>
      match chat_completions_create w before req with
      | inl _ => true
      | inr _ => false
      end
  | AxiosGet _ => false
  end.

Fixpoint any_rejected (w : World) (before l : list event) : bool :=
  match l with
  | [] => false
  | e :: l' => rejected w before e || any_rejected w (before ++ [e]) l'
  end.

(** Some model call of the log of a request was rejected by the backend. *)
Definition backend_failed (w : World) (l : list event) : bool := any_rejected w [] l.

(** The length tiers, in the order short, medium, detailed. *)
Definition tiers : list string := ["short"; "medium"; "detailed"].

Module Part000Spec.
Import Part000.

(** The checks of the handler, as it writes them. *)
Definition language_accepted (language : string) : bool :=
  Js.truthy (λ _, true) (Js.get LANGUAGES language).

Definition length_accepted (summaryLength : string) : bool :=
  Js.truthy (λ _, true) (Js.get lengthConfigs summaryLength).

(** The URL of a body that passes the three checks. *)
Definition validated (body : gmap string string) : option string :=
  match url_of body with
  | Some url =>
      if language_accepted (language_of body) && length_accepted (summaryLength_of body)
      then Some url else None
  | None => None
  end.

(** The summarization request the handler builds for a body and an
    article text. *)
Definition summary_call (body : gmap string string) (articleContent : string) : ChatRequest :=
  summary_request (language_of body)
    (field_of (Js.get lengthConfigs (summaryLength_of body)) instruction)
    (field_of (Js.get lengthConfigs (summaryLength_of body)) maxTokens)
    articleContent.

End Part000Spec.

Module ServerSpec.
Import Server.

Definition language_accepted (language : string) : bool :=
  Js.truthy Js.truthy_string (Js.get LANGUAGE_PROMPTS language).

Definition length_accepted (summaryLength : string) : bool :=
  Js.truthy (λ _, true) (Js.get SUMMARY_LENGTHS summaryLength).

Definition validated (body : gmap string string) : option string :=
  match url_of body with
  | Some url =>
      if language_accepted (language_of body) && length_accepted (summaryLength_of body)
      then Some url else None
  | None => None
  end.

Definition summary_call (body : gmap string string) (articleContent : string) : ChatRequest :=
  summary_request (language_of body)
    (field_of (Js.get SUMMARY_LENGTHS (summaryLength_of body)) instruction)
    (field_of (Js.get SUMMARY_LENGTHS (summaryLength_of body)) maxTokens)
    articleContent.

End ServerSpec.

(** The language keys of both registries. *)
Definition language_keys : list string :=
  ["english"; "bosnian"; "german"; "french"; "spanish"; "italian"; "turkish";
   "chinese"; "russian"; "arabic"].

(** The message [extractArticleContent] of [Server] throws. *)
Definition extract_failed : string :=
  "Failed to extract article content. Please check the URL and try again.".

(** A run that only writes one response and makes no network call. *)
Definition rejection (message : string) : completion unit * St :=
  (Normal tt, {| calls := []; sent := [{| status := 400; payload := Error message |}] |}).

(** The response of the [catch] of the handlers. *)
Definition failure (details : string) : Response :=
  {| status := 500; payload := ErrorDetails "Failed to generate summary" details |}.

(** The responses of the API: 200 with a summary, 400 with an error,
    500 with the fixed error and the details. *)
Definition api_shape (r : Response) : Prop :=
  (∃ summary, r = {| status := 200; payload := Summary summary |}) ∨
  (∃ message, r = {| status := 400; payload := Error message |}) ∨
  (∃ details, r = failure details).

(** A handler that, on a fresh request, never throws, writes exactly one
    response of the API shape, and answers with the 500 error whenever
    the backend rejected one of its model calls. *)
Definition catches_every_failure (handler : gmap string string → M unit) : Prop :=
  ∀ body w, ∃ st resp,
    handler body w St0 = (Normal tt, st) ∧
    sent st = [resp] ∧
    api_shape resp ∧
    (backend_failed w (calls st) = true → ∃ details, resp = failure details).

(** Which message the details of a 500 of [Part000] are, read off the
    log of the request: after the fetch alone, the message of the
    extractor; after a rejected summarization call, the message of the
    backend; after a rejected translation call, the message of
    [translateText]. *)
Definition part000_details (w : World) (st : St) : Prop :=
  (∀ url resp,
     calls st = [AxiosGet url] → sent st = [resp] → status resp = 500 →
     resp = failure "Failed to extract article content") ∧
  (∀ url req message,
     calls st = [AxiosGet url; ChatCreate req] →
     chat_completions_create w [AxiosGet url] req = inl message →
     sent st = [failure message]) ∧
  (∀ url req1 req2 message,
     calls st = [AxiosGet url; ChatCreate req1; ChatCreate req2] →
     chat_completions_create w [AxiosGet url; ChatCreate req1] req2 = inl message →
     sent st = [failure "Failed to translate the summary"]).

(** The same for [Server]: after the fetch alone, the message of the
    extractor; after a rejected model call, the message of the backend;
    after a [null] content, the message of the failed [trim]. *)
Definition server_details (w : World) (st : St) : Prop :=
  (∀ url, calls st = [AxiosGet url] → sent st = [failure extract_failed]) ∧
  (∀ url req message,
     calls st = [AxiosGet url; ChatCreate req] →
     chat_completions_create w [AxiosGet url] req = inl message →
     sent st = [failure message]) ∧
  (∀ url req,
     calls st = [AxiosGet url; ChatCreate req] →
     chat_completions_create w [AxiosGet url] req = inr None →
     sent st = [failure "Cannot read properties of null (reading 'trim')"]).

Module Part000Errors.

(** The response [Part000] gives when the fetch is rejected, the parser
    throws or no article is found; [None] when an article was parsed. *)
Definition extraction_error (a : option parsed) : option Response :=
  match a with
  | None | Some (ParseThrows _) => Some (failure "Failed to extract article content")
  | Some NoArticle =>
      Some {| status := 400; payload := Error "Could not extract article content" |}
  | Some (Article _) => None
  end.

End Part000Errors.

Module ServerErrors.

(** The response [Server] gives in these cases. *)
Definition extraction_error (a : option parsed) : option Response :=
  match a with
  | None | Some (ParseThrows _) | Some NoArticle => Some (failure extract_failed)
  | Some (Article _) => None
  end.

End ServerErrors.

(** ** Sample requests and worlds *)

Module Sample.

Definition news_url : string := "https://example.com/news".

Definition english_request : gmap string string := {[ "url" := news_url ]}.

Definition german_request : gmap string string := <["language" := "german"]> english_request.

(** A language key outside the supported set that names a member of
    [Object.prototype]. *)
Definition constructor_request : gmap string string :=
  <["language" := "constructor"]> english_request.

(** A url, a language key that names a member of [Object.prototype] and
    a length key outside the tiers. *)
Definition constructor_huge_request : gmap string string :=
  <["summaryLength" := "huge"]> constructor_request.

(** A world in which only [news_url] is reachable, the parser gives
    [article] for its document, and the model answers by [chat]. *)
Definition world (article : parsed) (chat : list event → string + option string) : World :=
  {| axios_get := λ _ url,
       if String.eqb url news_url
       then inr "<html><body><article>Rain is expected.</article></body></html>"
       else inl "getaddrinfo ENOTFOUND";
     remove_unwanted := λ data, data;
     readability_parse := λ _, article;
     chat_completions_create := λ before _, chat before |}.

(** The first model call gives an English summary, the second its
    translation. *)
Definition answers (before : list event) : string + option string :=
  match before with
  | [_] => inr (Some "- Rain is expected")
  | _ => inr (Some "- Regen wird erwartet")
  end.

(** The second model call is rejected. *)
Definition second_call_fails (before : list event) : string + option string :=
  match before with
  | [_] => inr (Some "- Rain is expected")
  | _ => inl "503 Service Unavailable"
  end.

Definition newsroom : World := world (Article "Rain is expected.") answers.

Definition translator_down : World := world (Article "Rain is expected.") second_call_fails.

Definition blank_page : World := world NoArticle answers.

Definition empty_article : World := world (Article "") answers.

(** The reachable page holds only white space. *)
Definition white_page : World := world (Article "   ") answers.

(** The model rejects every call. *)
Definition model_down : World :=
  world (Article "Rain is expected.") (λ _, inl "401 Incorrect API key provided").

(** The page text has white space around it and the model answers with a
    [null] content. *)
Definition null_content : World := world (Article "  Rain is expected. ") (λ _, inr None).

(** No URL is reachable. *)
Definition offline : World :=
  {| axios_get := λ _ _, inl "getaddrinfo ENOTFOUND";
     remove_unwanted := λ data, data;
     readability_parse := λ _, NoArticle;
     chat_completions_create := λ before _, answers before |}.

End Sample.

(** ** [src/unnamed/part_001]: the form that calls the server *)

Module Client.

Record LanguageOption : Type := { name : string; code : string }.

(** The options of the language select. *)
Definition LANGUAGES : gmap string LanguageOption := list_to_map [
  ("english", {| name := "English"; code := "en" |});
  ("bosnian", {| name := "Bosanski/Srpski/Hrvatski"; code := "bs" |});
  ("german", {| name := "Deutsch"; code := "de" |});
  ("french", {| name := "Français"; code := "fr" |});
  ("spanish", {| name := "Español"; code := "es" |});
  ("italian", {| name := "Italiano"; code := "it" |});
  ("turkish", {| name := "Türkçe"; code := "tr" |});
  ("chinese", {| name := "中文"; code := "zh" |});
  ("russian", {| name := "Русский"; code := "ru" |});
  ("arabic", {| name := "العربية"; code := "ar" |}) ].

(** One item of [recentSummaries]. *)
Module Entry.
Record t : Type := {
  url : string;
  summary : option string;
  timestamp : string;
  language : string }.
End Entry.

(** The state of [App] that [handleSubmit] reads and sets.  [summary] is
    a string, or [None] once it was set to a [null] or absent
    [data.summary]. *)
Record State : Type := {
  url : string;
  summary : option string;
  loading : bool;
  error : string;
  language : string;
  summaryLength : string;
  recentSummaries : list Entry.t;
  copySuccess : string }.

(** The state after the [useState] initializers, before local storage is
    read. *)
Definition initial : State :=
  {| url := ""; summary := Some ""; loading := false; error := "";
     language := "english"; summaryLength := "medium";
     recentSummaries := []; copySuccess := "" |}.

(** The object [handleSubmit] posts, as the JSON parser of the server
    delivers it: the length choice travels under the key [length]. *)
Definition request_body (st : State) : gmap string string :=
  {[ "url" := url st; "language" := language st; "length" := summaryLength st ]}.

(** What [fetch] and [response.json()] give: a rejected [fetch], a body
    that is not JSON, or a response of the server with its status and
    JSON payload. *)
Inductive reply : Type :=
  | FetchRejected (message : string)
  | NotJson (message : string)
  | Replied (r : Response).

(** [response.ok] *)
Definition ok (r : Response) : bool := (200 <=? status r) && (status r <=? 299).

(** [data.error], [data.details] and [data.summary] on the payload. *)
Definition data_error (p : Payload) : option string :=
  match p with
  | Error e | ErrorDetails e _ => Some e
  | Summary _ => None
  end.

Definition data_details (p : Payload) : option string :=
  match p with
  | ErrorDetails _ d => Some d
  | _ => None
  end.

Definition data_summary (p : Payload) : option string :=
  match p with
  | Summary s => s
  | _ => None
  end.

(** [a || b] where [a] is a string or [undefined]. *)
Definition or_else (a : option string) (b : string) : string :=
  match truthy_field a with
  | Some s => s
  | None => b
  end.

(** The updater passed to [setRecentSummaries]:
    [[entry, ...prev].slice(0, 5)]. *)
Definition add_recent (entry : Entry.t) (prev : list Entry.t) : list Entry.t :=
  take 5 (entry :: prev).

(** The [try] block of [handleSubmit] after the four resets: the new
    state, or the message of the error thrown. *)
Definition submit_try (now : string) (answer : reply) (st : State) : string + State :=
  match answer with
  | FetchRejected message => inl message
  | NotJson message => inl message
  | Replied r =>
      let data := payload r in
      if negb (ok r)
      then inl (or_else (data_error data)
                  (or_else (data_details data) "Failed to generate summary"))
      else
        inr {| url := url st;
               summary := data_summary data;
               loading := loading st;
               error := error st;
               language := language st;
               summaryLength := summaryLength st;
               recentSummaries :=
                 add_recent {| Entry.url := url st;
                               Entry.summary := data_summary data;
                               Entry.timestamp := now;
                               Entry.language := language st |}
                            (recentSummaries st);
               copySuccess := copySuccess st |}
  end.

(** [handleSubmit], given the answer of the server and the time [now] of
    [new Date().toISOString()]: the state when the handler is done. *)
Definition handleSubmit (now : string) (answer : reply) (st : State) : State :=
  let reset :=
    {| url := url st; summary := Some ""; loading := true; error := "";
       language := language st; summaryLength := summaryLength st;
       recentSummaries := recentSummaries st; copySuccess := "" |} in
  let after :=
    match submit_try now answer reset with
    | inr st' => st'
    | inl message =>
        {| url := url reset; summary := summary reset; loading := loading reset;
           error := or_else (Some message) "Failed to generate summary. Please try again.";
           language := language reset; summaryLength := summaryLength reset;
           recentSummaries := recentSummaries reset; copySuccess := copySuccess reset |}
    end in
  {| url := url after; summary := summary after; loading := false; error := error after;
     language := language after; summaryLength := summaryLength after;
     recentSummaries := recentSummaries after; copySuccess := copySuccess after |}.

(** The answer the form gets when [handler] serves its request in the
    world [w]: the single response the handler writes. *)
Definition served (handler : gmap string string → M unit) (w : World) (st : State) : option reply :=
  match sent (snd (handler (request_body st) w St0)) with
  | [r] => Some (Replied r)
  | _ => None
  end.

End Client.

(** ** [src/server/index.js]: the API key read at start-up *)

Module Setup.

(** ASCII lower case of a byte. *)
Definition lower (b : nat) : nat :=
  if (65 <=? b)%nat && (b <=? 90)%nat then (b + 32)%nat else b.

(** The bytes of [Bearer], in lower case. *)
Definition bearer : list nat := [98; 101; 97; 114; 101; 114]%nat.

(** [strip_prefix] that compares letters without regard to case, as the
    [i] flag of the pattern does. *)
Fixpoint strip_prefix_ci (p bs : list nat) : option (list nat) :=
  match p, bs with
  | [], _ => Some bs
  | _ :: _, [] => None
  | x :: p', b :: bs' => if Nat.eqb x (lower b) then strip_prefix_ci p' bs' else None
  end.

(** [s.replace(/^Bearer\s+/i, '')] on the bytes of [s]: when [s] opens
    with [Bearer] in any letter case followed by white space, that prefix
    and the whole run of white space after it are removed. *)
Definition replace_bearer (bs : list nat) : list nat :=
  match strip_prefix_ci bearer bs with
  | Some rest =>
      match Js.strip_any Js.white_space rest with
      | Some rest' => Js.trim_front (length rest') Js.white_space rest'
      | None => bs
      end
  | None => bs
  end.

(** [process.env.OPENAI_API_KEY?.replace(/^Bearer\s+/i, '').trim()],
    where [None] is an unset variable. *)
Definition apiKey (OPENAI_API_KEY : option string) : option string :=
  (λ s, Js.trim (Js.string_of_bytes (replace_bearer (Js.bytes_of_string s)))) <$> OPENAI_API_KEY.

End Setup.

(** The bytes [Js.trim] keeps: white space stripped at the front, then at
    the back. *)
Definition trimmed_bytes (bs : list nat) : list nat :=
  let front := Js.trim_front (length bs) Js.white_space bs in
  rev (Js.trim_front (length front) (map (@rev nat) Js.white_space) (rev front)).

Module ClientSpec.
Import Client.

(** The entry a successful submission at time [now] adds. *)
Definition entry_of (now : string) (st : State) (s : option string) : Entry.t :=
  {| Entry.url := url st; Entry.summary := s; Entry.timestamp := now;
     Entry.language := language st |}.

(** The list of recent summaries after the successful submissions that
    add [entries], the first of them first. *)
Definition after_additions (prev entries : list Entry.t) : list Entry.t :=
  foldl (λ acc entry, add_recent entry acc) prev entries.

(** What a submission of the form to [handler] leads to: the handler
    answers with one response, the form is no longer loading, and either
    the response is a 200 whose summary is shown and recorded, or a 400
    whose error is shown, or the 500 error, of which the fixed error
    string is shown and not the details. *)
Definition outcome (handler : gmap string string → M unit) : Prop :=
  ∀ w st now, ∃ r,
    served handler w st = Some (Replied r) ∧
    let st' := handleSubmit now (Replied r) st in
    loading st' = false ∧
    ((∃ s, r = {| status := 200; payload := Summary s |} ∧
           error st' = "" ∧ summary st' = s ∧
           recentSummaries st' = add_recent (entry_of now st s) (recentSummaries st)) ∨
     (∃ message, r = {| status := 400; payload := Error message |} ∧
           message ∈ ["URL is required"; "Invalid language selected";
                      "Could not extract article content"] ∧
           error st' = message ∧ summary st' = Some "" ∧
           recentSummaries st' = recentSummaries st) ∨
     (∃ details, r = failure details ∧
           error st' = "Failed to generate summary" ∧ summary st' = Some "" ∧
           recentSummaries st' = recentSummaries st)).

End ClientSpec.

(** Sample states of the form. *)
Module ClientSample.

Definition form : Client.State :=
  {| Client.url := Sample.news_url; Client.summary := Some ""; Client.loading := false;
     Client.error := ""; Client.language := "german"; Client.summaryLength := "detailed";
     Client.recentSummaries := []; Client.copySuccess := "" |}.

End ClientSample.

(** * Properties *)

(** ** Registry lookups *)

Section registry.
Context {A : Type}.
Implicit Types (o : gmap string A) (k : string).

Lemma get_own o k a : o !! k = Some a → Js.get o k = Js.Own a.
Proof. intros H. unfold Js.get. by rewrite H. Qed.

Lemma get_cases o k :
  (∃ a, o !! k = Some a ∧ Js.get o k = Js.Own a) ∨
  (o !! k = None ∧ k ∈ Js.object_prototype ∧ Js.get o k = Js.Inherited k) ∨
  (o !! k = None ∧ (k ∉ Js.object_prototype) ∧ Js.get o k = Js.Undefined).
Proof.
  unfold Js.get. destruct (o !! k) as [a|]; [left; eauto|].
  right. case_bool_decide; [left | right]; done.
Qed.

Lemma get_unknown o k :
  o !! k = None → k ∉ Js.object_prototype → Js.get o k = Js.Undefined.
Proof. intros H1 H2. unfold Js.get. rewrite H1. by rewrite bool_decide_eq_false_2. Qed.

End registry.

Lemma LANGUAGES_translationPrompt language cfg :
  Part000.LANGUAGES !! language = Some cfg →
  (Part000.translationPrompt cfg = None ∧ language = "english") ∨
  (∃ prompt, Part000.translationPrompt cfg = Some prompt ∧
             Js.truthy_string prompt = true ∧ language ≠ "english").
Proof.
  intros H. apply elem_of_list_to_map_2 in H.
  repeat (apply elem_of_cons in H as [H|H]; [inversion H; subst; clear H; (by left) || (right; eexists; by repeat split)|]).
  by apply elem_of_nil in H.
Qed.

Lemma LANGUAGES_accepts language cfg :
  Part000.LANGUAGES !! language = Some cfg → Part000Spec.language_accepted language = true.
Proof. intros H. unfold Part000Spec.language_accepted. by rewrite (get_own _ _ _ H). Qed.

(** ** Running the pieces of [Part000] *)

Section part000_runs.
Import Part000 Part000Spec.
#[local] Arguments Js.get : simpl never.
Implicit Types (w : World) (st : St) (body : gmap string string).

Lemma extract_run w st url :
  extractArticleContent url w st =
    (match axios_get w (calls st) url with
     | inl _ => Throw "Failed to extract article content"
     | inr data =>
         match readability_parse w data with
         | ParseThrows _ => Throw "Failed to extract article content"
         | NoArticle => Normal ""
         | Article textContent => Normal textContent
         end
     end, log_call (AxiosGet url) st).
Proof.
  unfold extractArticleContent, try_catch, mbind, M_bind, bind, axios_get_data, parse_document.
  destruct (axios_get w (calls st) url) as [e|data]; [done|].
  by destruct (readability_parse w data).
Qed.

Lemma translateText_own w st text language cfg :
  LANGUAGES !! language = Some cfg →
  translateText text language w st =
    match translationPrompt cfg with
    | None => (Normal text, st)
    | Some prompt =>
        (match chat_completions_create w (calls st) (translation_request prompt text) with
         | inl _ => Throw "Failed to translate the summary"
         | inr translated => Normal translated
         end, log_call (ChatCreate (translation_request prompt text)) st)
    end.
Proof.
  intros H. unfold translateText, mbind, M_bind, bind. rewrite (get_own _ _ _ H). simpl.
  destruct (LANGUAGES_translationPrompt _ _ H) as [[-> _]|(prompt & -> & Hp & _)]; [done|].
  simpl. rewrite Hp. unfold try_catch, chat_content.
  by destruct (chat_completions_create _ _ _).
Qed.

Lemma translateText_inherited w st text language :
  Js.get LANGUAGES language = Js.Inherited language →
  translateText text language w st = (Normal text, st).
Proof. intros H. unfold translateText, mbind, M_bind, bind. by rewrite H. Qed.

Lemma summarize_no_url w st body :
  url_of body = None →
  summarize body w st =
    (Normal tt, write_response {| status := 400; payload := Error "URL is required" |} st).
Proof.
  unfold url_of. intros H. unfold summarize, summarize_try, try_catch. by rewrite H.
Qed.

Lemma summarize_bad_language w st body url :
  url_of body = Some url →
  language_accepted (language_of body) = false →
  summarize body w st =
    (Normal tt, write_response {| status := 400; payload := Error "Invalid language selected" |} st).
Proof.
  unfold url_of, language_accepted, language_of. intros H1 H2.
  unfold summarize, summarize_try, try_catch. by rewrite H1, H2.
Qed.

Lemma summarize_bad_length w st body url :
  url_of body = Some url →
  language_accepted (language_of body) = true →
  length_accepted (summaryLength_of body) = false →
  summarize body w st =
    (Normal tt,
     write_response {| status := 400; payload := Error "Invalid summary length selected" |} st).
Proof.
  unfold url_of, language_accepted, language_of, length_accepted, summaryLength_of.
  intros H1 H2 H3. unfold summarize, summarize_try, try_catch. by rewrite H1, H2, H3.
Qed.

Lemma validated_inv body url :
  validated body = Some url →
  url_of body = Some url ∧
  language_accepted (language_of body) = true ∧
  length_accepted (summaryLength_of body) = true.
Proof.
  unfold validated. destruct (url_of body) as [u|]; [|done].
  destruct (language_accepted _); [|done]. destruct (length_accepted _); [|done].
  by intros [= ->].
Qed.

(** The handler after validation, phase by phase. *)
Lemma summarize_validated w st body url :
  validated body = Some url →
  summarize body w st =
    match extractArticleContent url w st with
    | (Throw message, st1) =>
        (Normal tt,
         write_response {| status := 500;
                           payload := ErrorDetails "Failed to generate summary" message |} st1)
    | (Normal articleContent, st1) =>
        if Js.truthy_string articleContent then
          let req := summary_call body articleContent in
          let st2 := log_call (ChatCreate req) st1 in
          match chat_completions_create w (calls st1) req with
          | inl message =>
              (Normal tt,
               write_response {| status := 500;
                                 payload := ErrorDetails "Failed to generate summary" message |} st2)
          | inr englishSummary =>
              match translateText englishSummary (language_of body) w st2 with
              | (Normal finalSummary, st3) =>
                  (Normal tt, write_response {| status := 200; payload := Summary finalSummary |} st3)
              | (Throw message, st3) =>
                  (Normal tt,
                   write_response {| status := 500;
                                     payload := ErrorDetails "Failed to generate summary" message |} st3)
              end
          end
        else
          (Normal tt,
           write_response {| status := 400;
                             payload := Error "Could not extract article content" |} st1)
    end.
Proof.
  intros (Hu & Hla & Hle)%validated_inv.
  unfold url_of, language_accepted, language_of, length_accepted, summaryLength_of, summary_call in *.
  unfold summarize, summarize_try, try_catch. rewrite Hu, Hla, Hle. cbn [negb].
  unfold mbind, M_bind, bind at 1.
  destruct (extractArticleContent url w st) as [[articleContent|message] st1]; [|reflexivity].
  destruct (Js.truthy_string articleContent); [|reflexivity]. cbn [negb].
  unfold language_of, summaryLength_of.
  destruct (Js.get lengthConfigs _) as [lc|name|]; [| |done];
    unfold bind, chat_content, read_property, mret, M_ret, ret, field_of;
    (destruct (chat_completions_create _ _ _) as [message|summary]; [reflexivity|]);
    by destruct (translateText _ _ _ _) as [[finalSummary|message] st3].
Qed.

End part000_runs.

(** ** Running the pieces of [Server] *)

Section server_runs.
Import Server ServerSpec.
#[local] Arguments Js.get : simpl never.
Implicit Types (w : World) (st : St) (body : gmap string string).

Lemma server_extract_run w st url :
  extractArticleContent url w st =
    (match axios_get w (calls st) url with
     | inl _ => Throw extract_failed
     | inr data =>
         match readability_parse w (remove_unwanted w data) with
         | ParseThrows _ | NoArticle => Throw extract_failed
         | Article textContent => Normal (Js.trim textContent)
         end
     end, log_call (AxiosGet url) st).
Proof.
  unfold extractArticleContent, try_catch, mbind, M_bind, bind, axios_get_data,
    without_unwanted, parse_document.
  destruct (axios_get w (calls st) url) as [e|data]; [done|].
  by destruct (readability_parse w _).
Qed.

Lemma server_summarize_no_url w st body :
  url_of body = None →
  summarize body w st =
    (Normal tt, write_response {| status := 400; payload := Error "URL is required" |} st).
Proof.
  unfold url_of. intros H. unfold summarize, summarize_try, try_catch. by rewrite H.
Qed.

Lemma server_summarize_bad_language w st body url :
  url_of body = Some url →
  language_accepted (language_of body) = false →
  summarize body w st =
    (Normal tt, write_response {| status := 400; payload := Error "Invalid language selected" |} st).
Proof.
  unfold url_of, language_accepted, language_of. intros H1 H2.
  unfold summarize, summarize_try, try_catch. by rewrite H1, H2.
Qed.

Lemma server_summarize_bad_length w st body url :
  url_of body = Some url →
  language_accepted (language_of body) = true →
  length_accepted (summaryLength_of body) = false →
  summarize body w st =
    (Normal tt,
     write_response {| status := 400; payload := Error "Invalid summary length selected" |} st).
Proof.
  unfold url_of, language_accepted, language_of, length_accepted, summaryLength_of.
  intros H1 H2 H3. unfold summarize, summarize_try, try_catch. by rewrite H1, H2, H3.
Qed.

Lemma server_validated_inv body url :
  validated body = Some url →
  url_of body = Some url ∧
  language_accepted (language_of body) = true ∧
  length_accepted (summaryLength_of body) = true.
Proof.
  unfold validated. destruct (url_of body) as [u|]; [|done].
  destruct (language_accepted _); [|done]. destruct (length_accepted _); [|done].
  by intros [= ->].
Qed.

(** The handler after validation, phase by phase. *)
Lemma server_summarize_validated w st body url :
  validated body = Some url →
  summarize body w st =
    match extractArticleContent url w st with
    | (Throw message, st1) =>
        (Normal tt,
         write_response {| status := 500;
                           payload := ErrorDetails "Failed to generate summary" message |} st1)
    | (Normal articleContent, st1) =>
        let req := summary_call body articleContent in
        let st2 := log_call (ChatCreate req) st1 in
        match chat_completions_create w (calls st1) req with
        | inl message =>
            (Normal tt,
             write_response {| status := 500;
                               payload := ErrorDetails "Failed to generate summary" message |} st2)
        | inr None =>
            (Normal tt,
             write_response
               {| status := 500;
                  payload := ErrorDetails "Failed to generate summary"
                               "Cannot read properties of null (reading 'trim')" |} st2)
        | inr (Some content) =>
            (Normal tt,
             write_response {| status := 200; payload := Summary (Some (Js.trim content)) |} st2)
        end
    end.
Proof.
  intros (Hu & Hla & Hle)%server_validated_inv.
  unfold url_of, language_accepted, language_of, length_accepted, summaryLength_of, summary_call in *.
  unfold summarize, summarize_try, try_catch. rewrite Hu, Hla, Hle. cbn [negb].
  unfold mbind, M_bind, bind at 1.
  destruct (extractArticleContent url w st) as [[articleContent|message] st1]; [|reflexivity].
  unfold language_of, summaryLength_of.
  destruct (Js.get SUMMARY_LENGTHS _) as [lc|name|]; [| |done];
    unfold bind, chat_content, read_property, mret, M_ret, ret, field_of;
    (destruct (chat_completions_create _ _ _) as [message|[content|]]; reflexivity).
Qed.

End server_runs.

(** ** The two variants accept the same requests *)

Lemma LANGUAGES_keys language :
  is_Some (Part000.LANGUAGES !! language) ↔ language ∈ language_keys.
Proof.
  split.
  - intros [cfg H]. apply elem_of_list_to_map_2 in H.
    apply (list_elem_of_fmap_2 fst) in H. exact H.
  - intros H. destruct (Part000.LANGUAGES !! language) eqn:E; [by eexists|].
    apply not_elem_of_list_to_map in E. done.
Qed.

Lemma LANGUAGE_PROMPTS_keys language :
  (∃ prompt, Server.LANGUAGE_PROMPTS !! language = Some prompt ∧ Js.truthy_string prompt = true)
  ↔ language ∈ language_keys.
Proof.
  split.
  - intros (prompt & H & _). apply elem_of_list_to_map_2 in H.
    apply (list_elem_of_fmap_2 fst) in H. exact H.
  - intros H. unfold language_keys in H.
    repeat (apply elem_of_cons in H as [->|H]; [eexists; split; [reflexivity|reflexivity]|]).
    by apply elem_of_nil in H.
Qed.

Lemma language_accepted_agree language :
  ServerSpec.language_accepted language = Part000Spec.language_accepted language.
Proof.
  unfold ServerSpec.language_accepted, Part000Spec.language_accepted.
  destruct (decide (language ∈ language_keys)) as [Hin|Hout].
  - destruct (proj2 (LANGUAGES_keys language) Hin) as [cfg Hc].
    destruct (proj2 (LANGUAGE_PROMPTS_keys language) Hin) as (prompt & Hp & Ht).
    by rewrite (get_own _ _ _ Hc), (get_own _ _ _ Hp).
  - assert (Part000.LANGUAGES !! language = None) as H1
      by (by apply not_elem_of_list_to_map_1).
    assert (Server.LANGUAGE_PROMPTS !! language = None) as H2
      by (by apply not_elem_of_list_to_map_1).
    unfold Js.get. rewrite H1, H2. by case_bool_decide.
Qed.

Lemma length_accepted_agree summaryLength :
  ServerSpec.length_accepted summaryLength = Part000Spec.length_accepted summaryLength.
Proof.
  unfold ServerSpec.length_accepted, Part000Spec.length_accepted.
  destruct (decide (summaryLength ∈ tiers)) as [Hin|Hout].
  - unfold tiers in Hin.
    repeat (apply elem_of_cons in Hin as [->|Hin]; [reflexivity|]).
    by apply elem_of_nil in Hin.
  - assert (Part000.lengthConfigs !! summaryLength = None) as H1
      by (by apply not_elem_of_list_to_map_1).
    assert (Server.SUMMARY_LENGTHS !! summaryLength = None) as H2
      by (by apply not_elem_of_list_to_map_1).
    unfold Js.get. rewrite H1, H2. by case_bool_decide.
Qed.

Lemma validated_agree body : ServerSpec.validated body = Part000Spec.validated body.
Proof.
  unfold ServerSpec.validated, Part000Spec.validated.
  by rewrite language_accepted_agree, length_accepted_agree.
Qed.

Lemma language_accepted_cases language :
  Part000Spec.language_accepted language = true →
  (∃ cfg, Part000.LANGUAGES !! language = Some cfg) ∨
  Js.get Part000.LANGUAGES language = Js.Inherited language.
Proof.
  unfold Part000Spec.language_accepted.
  destruct (get_cases Part000.LANGUAGES language) as [(cfg & H & _)|[(_ & _ & H)|(_ & _ & H)]];
    [eauto|eauto|by rewrite H].
Qed.
(** A request that fails a check is answered by the error of the first
    failing check, before any network call. *)
Lemma rejected_request_run body w :
  Part000Spec.validated body = None →
  let message :=
    if bool_decide (url_of body = None) then "URL is required"
    else if negb (Part000Spec.language_accepted (language_of body))
         then "Invalid language selected"
         else "Invalid summary length selected" in
  Part000.summarize body w St0 = rejection message ∧
  Server.summarize body w St0 = rejection message.
Proof.
  intros Hv. cbn zeta. unfold Part000Spec.validated in Hv.
  destruct (url_of body) as [url|] eqn:Hu.
  - rewrite bool_decide_eq_false_2 by done.
    destruct (Part000Spec.language_accepted (language_of body)) eqn:Hl; cbn [negb].
    + destruct (Part000Spec.length_accepted (summaryLength_of body)) eqn:Hn; [done|].
      split.
      * by rewrite (summarize_bad_length _ _ _ _ Hu Hl Hn).
      * rewrite <- language_accepted_agree in Hl. rewrite <- length_accepted_agree in Hn.
        by rewrite (server_summarize_bad_length _ _ _ _ Hu Hl Hn).
    + split.
      * by rewrite (summarize_bad_language _ _ _ _ Hu Hl).
      * rewrite <- language_accepted_agree in Hl.
        by rewrite (server_summarize_bad_language _ _ _ _ Hu Hl).
  - rewrite bool_decide_eq_true_2 by done. split.
    + by rewrite (summarize_no_url _ _ _ Hu).
    + by rewrite (server_summarize_no_url _ _ _ Hu).
Qed.



(** ** The claims *)

(** C4. Translating a text for the base language, the language whose
    profile has a null translation prompt, returns the text unchanged and
    leaves the state as it was: no call to the backend is logged. *)
Theorem translateText_base_language text language cfg w st :
  Part000.LANGUAGES !! language = Some cfg →
  Part000.translationPrompt cfg = None →
  Part000.translateText text language w st = (Normal text, st).
Proof. intros Hc Hp. rewrite (translateText_own _ _ _ _ _ Hc). by rewrite Hp. Qed.

Lemma translateText_base_language_witness :
  Part000.translateText (Some "- Rain is expected") "english" Sample.newsroom St0 =
    (Normal (Some "- Rain is expected"), St0).
Proof. apply (translateText_base_language _ "english" Part000.english); reflexivity. Defined.

(** The base language is English, and no other profile lacks a
    translation prompt. *)
Lemma base_language_is_english language cfg :
  Part000.LANGUAGES !! language = Some cfg →
  Part000.translationPrompt cfg = None ↔ language = "english".
Proof.
  intros H. destruct (LANGUAGES_translationPrompt _ _ H) as [[? ?]|(prompt & Hp & _ & Hne)].
  - done.
  - rewrite Hp. split; [done|]. intros ->. done.
Qed.

(** C8. In both length registries the tiers are exactly short, medium and
    detailed, and the token ceiling grows strictly from short to medium
    and from medium to detailed; it is therefore non-decreasing in that
    order. *)
Theorem maxTokens_increasing :
  (dom Part000.lengthConfigs = list_to_set tiers ∧
   ∃ short medium detailed,
     Part000.lengthConfigs !! "short" = Some short ∧
     Part000.lengthConfigs !! "medium" = Some medium ∧
     Part000.lengthConfigs !! "detailed" = Some detailed ∧
     Part000.maxTokens short < Part000.maxTokens medium < Part000.maxTokens detailed) ∧
  (dom Server.SUMMARY_LENGTHS = list_to_set tiers ∧
   ∃ short medium detailed,
     Server.SUMMARY_LENGTHS !! "short" = Some short ∧
     Server.SUMMARY_LENGTHS !! "medium" = Some medium ∧
     Server.SUMMARY_LENGTHS !! "detailed" = Some detailed ∧
     Server.maxTokens short < Server.maxTokens medium < Server.maxTokens detailed).
Proof.
  split; (split; [unfold Part000.lengthConfigs, Server.SUMMARY_LENGTHS; by rewrite dom_list_to_map_L|]).
  - do 3 eexists. split_and!; [reflexivity..| |]; simpl; lia.
  - do 3 eexists. split_and!; [reflexivity..| |]; simpl; lia.
Qed.

(** C9. Leaving out the language field gives the same handler run as
    sending language "english", and leaving out the summaryLength field
    the same run as sending summaryLength "medium", in both variants: the
    same calls, the same response, in every world. *)
Theorem defaults_made_explicit (body : gmap string string) :
  (Part000.summarize (delete "language" body) =
     Part000.summarize (<["language" := "english"]> body) ∧
   Part000.summarize (delete "summaryLength" body) =
     Part000.summarize (<["summaryLength" := "medium"]> body)) ∧
  (Server.summarize (delete "language" body) =
     Server.summarize (<["language" := "english"]> body) ∧
   Server.summarize (delete "summaryLength" body) =
     Server.summarize (<["summaryLength" := "medium"]> body)).
Proof.
  unfold Part000.summarize, Part000.summarize_try, Server.summarize, Server.summarize_try.
  rewrite !lookup_delete_eq, !lookup_insert_eq.
  rewrite !lookup_delete_ne, !lookup_insert_ne by done.
  done.
Qed.

(** C10 (failing input). With a url, the language key "constructor",
    which is not a supported key, and the length key "huge", which is not
    a tier, both variants answer "Invalid summary length selected": the
    language check lets the inherited member of Object.prototype pass, so
    the error of the unknown language is not the one returned. *)
Theorem inherited_language_key_hides_language_error :
  ("constructor" ∉ language_keys) ∧
  ("huge" ∉ tiers) ∧
  url_of Sample.constructor_huge_request = Some Sample.news_url ∧
  language_of Sample.constructor_huge_request = "constructor" ∧
  summaryLength_of Sample.constructor_huge_request = "huge" ∧
  Part000.summarize Sample.constructor_huge_request Sample.newsroom St0 =
    rejection "Invalid summary length selected" ∧
  Server.summarize Sample.constructor_huge_request Sample.newsroom St0 =
    rejection "Invalid summary length selected".
Proof.
  split_and!; try (vm_compute; reflexivity);
    intros H; repeat (apply elem_of_cons in H as [H|H]; [discriminate H|]);
    by apply elem_of_nil in H.
Qed.

(** C7. In [Part000], when a validated request asks for a language with
    a translation prompt, extraction and summarization succeed and the
    backend rejects the translation call, the only response is the 500
    error with details "Failed to translate the summary": the English
    summary is not sent. *)
Theorem translation_failure_fails_request w body url cfg prompt data text summary message :
  Part000Spec.validated body = Some url →
  Part000.LANGUAGES !! language_of body = Some cfg →
  Part000.translationPrompt cfg = Some prompt →
  axios_get w [] url = inr data →
  readability_parse w data = Article text →
  Js.truthy_string text = true →
  chat_completions_create w [AxiosGet url] (Part000Spec.summary_call body text) = inr summary →
  chat_completions_create w [AxiosGet url; ChatCreate (Part000Spec.summary_call body text)]
    (Part000.translation_request prompt summary) = inl message →
  Part000.summarize body w St0 =
    (Normal tt,
     {| calls := [AxiosGet url; ChatCreate (Part000Spec.summary_call body text);
                  ChatCreate (Part000.translation_request prompt summary)];
        sent := [failure "Failed to translate the summary"] |}).
Proof.
  intros Hv Hc Hp Hf Hr Ht Hs Htr.
  rewrite (summarize_validated _ _ _ _ Hv), extract_run. simpl calls.
  rewrite Hf, Hr, Ht. cbn zeta. unfold log_call at 1. simpl calls. rewrite Hs.
  rewrite (translateText_own _ _ _ _ _ Hc), Hp. unfold log_call. simpl calls. by rewrite Htr.
Qed.

Lemma translation_failure_fails_request_witness :
  Part000.summarize Sample.german_request Sample.translator_down St0 =
    (Normal tt,
     {| calls := [AxiosGet Sample.news_url;
                  ChatCreate (Part000Spec.summary_call Sample.german_request "Rain is expected.");
                  ChatCreate (Part000.translation_request
                    "Translate the following text to German, maintaining the bullet point format and ensuring the translation is natural and fluent:"
                    (Some "- Rain is expected"))];
        sent := [failure "Failed to translate the summary"] |}).
Proof.
  eapply (translation_failure_fails_request Sample.translator_down Sample.german_request);
    reflexivity.
Defined.

Ltac leaf :=
  eexists _, _; split; [reflexivity|]; split; [reflexivity|]; split;
  [ unfold api_shape, failure; eauto
  | unfold backend_failed, failure; cbn [calls log_call write_response any_rejected rejected app orb St0];
    intros Hb; try discriminate Hb; eauto ].

Lemma part000_catches_every_failure : catches_every_failure Part000.summarize.
Proof.
  intros body w.
  destruct (Part000Spec.validated body) as [url|] eqn:Hv.
  - rewrite (summarize_validated _ _ _ _ Hv), extract_run. simpl calls.
    destruct (validated_inv _ _ Hv) as (_ & Hl & _).
    destruct (axios_get w [] url) as [e|data]; [leaf|].
    destruct (readability_parse w data) as [e| |text]; [leaf|leaf|].
    destruct (Js.truthy_string text); [|leaf]. cbn zeta.
    unfold log_call. simpl calls.
    destruct (chat_completions_create w [AxiosGet url] _) as [e|summary] eqn:Hs.
    { leaf. }
    destruct (language_accepted_cases _ Hl) as [[cfg Hc]|Hi].
    + rewrite (translateText_own _ _ _ _ _ Hc).
      destruct (Part000.translationPrompt cfg) as [prompt|].
      * unfold log_call. simpl calls.
        destruct (chat_completions_create w [_; _] _) as [e|translated] eqn:Ht.
        -- leaf.
        -- leaf. rewrite Hs, Ht in Hb. discriminate Hb.
      * leaf. rewrite Hs in Hb. discriminate Hb.
    + rewrite (translateText_inherited _ _ _ _ Hi).
      leaf. rewrite Hs in Hb. discriminate Hb.
  - destruct (rejected_request_run body w Hv) as [-> _]. leaf.
Qed.

Lemma server_catches_every_failure : catches_every_failure Server.summarize.
Proof.
  intros body w.
  destruct (ServerSpec.validated body) as [url|] eqn:Hv.
  - rewrite (server_summarize_validated _ _ _ _ Hv), server_extract_run. simpl calls.
    destruct (axios_get w [] url) as [e|data]; [leaf|].
    destruct (readability_parse w _) as [e| |text]; [leaf|leaf|]. cbn zeta.
    unfold log_call. simpl calls.
    destruct (chat_completions_create w [AxiosGet url] _) as [e|[content|]] eqn:Hs.
    + leaf.
    + leaf. rewrite Hs in Hb. discriminate Hb.
    + leaf.
  - rewrite validated_agree in Hv.
    destruct (rejected_request_run body w Hv) as [_ ->]. leaf.
Qed.

Ltac details_leaf :=
  unfold part000_details, server_details;
  cbn [calls sent snd log_call write_response app St0 Js.truthy_string];
  split_and!; intros; simplify_eq; unfold failure in *; cbn [status] in *;
  try done; try congruence.

Lemma part000_details_hold body w :
  part000_details w (snd (Part000.summarize body w St0)).
Proof.
  destruct (Part000Spec.validated body) as [url|] eqn:Hv.
  - rewrite (summarize_validated _ _ _ _ Hv), extract_run. simpl calls.
    destruct (validated_inv _ _ Hv) as (_ & Hl & _).
    destruct (axios_get w [] url) as [e|data]; [details_leaf|].
    destruct (readability_parse w data) as [e| |text]; [details_leaf..|].
    destruct (Js.truthy_string text); [|details_leaf]. cbn zeta.
    unfold log_call. simpl calls.
    destruct (chat_completions_create w [AxiosGet url] _) as [e|summary] eqn:Hs.
    { details_leaf. }
    destruct (language_accepted_cases _ Hl) as [[cfg Hc]|Hi].
    + rewrite (translateText_own _ _ _ _ _ Hc).
      destruct (Part000.translationPrompt cfg) as [prompt|].
      * unfold log_call. simpl calls.
        destruct (chat_completions_create w [_; _] _) as [e|translated] eqn:Ht;
          details_leaf.
      * details_leaf.
    + rewrite (translateText_inherited _ _ _ _ Hi). details_leaf.
  - destruct (rejected_request_run body w Hv) as [-> _]. details_leaf.
Qed.

Lemma server_details_hold body w :
  server_details w (snd (Server.summarize body w St0)).
Proof.
  destruct (ServerSpec.validated body) as [url|] eqn:Hv.
  - rewrite (server_summarize_validated _ _ _ _ Hv), server_extract_run. simpl calls.
    destruct (axios_get w [] url) as [e|data]; [details_leaf|].
    destruct (readability_parse w _) as [e| |text]; [details_leaf..|]. cbn zeta.
    unfold log_call. simpl calls.
    destruct (chat_completions_create w [AxiosGet url] _) as [e|[content|]] eqn:Hs;
      details_leaf.
  - rewrite validated_agree in Hv.
    destruct (rejected_request_run body w Hv) as [_ ->]. details_leaf.
Qed.

(** C6 (counterexample). For the German request in a world whose backend
    rejects the translation call with "503 Service Unavailable", the
    details of the 500 response are the message of [translateText], not
    the message of the backend. *)
Lemma translation_failure_hides_backend_message :
  chat_completions_create Sample.translator_down
    [AxiosGet Sample.news_url;
     ChatCreate (Part000Spec.summary_call Sample.german_request "Rain is expected.")]
    (Part000.translation_request
       "Translate the following text to German, maintaining the bullet point format and ensuring the translation is natural and fluent:"
       (Some "- Rain is expected")) = inl "503 Service Unavailable" ∧
  sent (snd (Part000.summarize Sample.german_request Sample.translator_down St0)) =
    [{| status := 500;
        payload := ErrorDetails "Failed to generate summary"
                     "Failed to translate the summary" |}] ∧
  "Failed to translate the summary" ≠ "503 Service Unavailable".
Proof. split_and!; [vm_compute; reflexivity..|discriminate]. Qed.

(** C6 (amended). In both variants the handler of POST /summarize never
    throws: on every request and in every world it returns normally
    having written exactly one response, which is a 200 with a summary,
    a 400 with an error string, or the 500 error "Failed to generate
    summary" with a details string; whenever the backend rejected a model
    call of the request, summarization or translation, the response is
    that 500 error.  The details are the message of the error that
    reached the catch of the handler, whatever the try block threw: the
    message of the backend for a rejected summarization call; the fixed
    message of [translateText] for a rejected translation call; the fixed
    message of the extractor when the fetch or the parser failed; and in
    [Server] the message of the failed [trim] for a [null] content. *)
Theorem failures_become_json_errors :
  catches_every_failure Part000.summarize ∧
  catches_every_failure Server.summarize ∧
  (∀ body w st message st',
     Part000.summarize_try body w st = (Throw message, st') →
     Part000.summarize body w st = (Normal tt, write_response (failure message) st')) ∧
  (∀ body w st message st',
     Server.summarize_try body w st = (Throw message, st') →
     Server.summarize body w st = (Normal tt, write_response (failure message) st')) ∧
  (∀ body w, part000_details w (snd (Part000.summarize body w St0))) ∧
  (∀ body w, server_details w (snd (Server.summarize body w St0))).
Proof.
  split_and!.
  - exact part000_catches_every_failure.
  - exact server_catches_every_failure.
  - intros body w st message st' H. unfold Part000.summarize, try_catch. by rewrite H.
  - intros body w st message st' H. unfold Server.summarize, try_catch. by rewrite H.
  - exact part000_details_hold.
  - exact server_details_hold.
Qed.

Lemma failures_become_json_errors_witness :
  sent (snd (Part000.summarize Sample.german_request Sample.translator_down St0)) =
    [failure "Failed to translate the summary"] ∧
  sent (snd (Server.summarize Sample.english_request Sample.model_down St0)) =
    [failure "401 Incorrect API key provided"].
Proof.
  destruct failures_become_json_errors as (_ & _ & _ & _ & HP & HS). split.
  - destruct (HP Sample.german_request Sample.translator_down) as (_ & _ & Htranslation).
    eapply Htranslation; vm_compute; reflexivity.
  - destruct (HS Sample.english_request Sample.model_down) as (_ & Hmodel & _).
    eapply Hmodel; vm_compute; reflexivity.
Defined.

(** C3 (failing input). The language key "constructor" is not one of the
    supported keys, yet both variants let it pass the language check,
    because the lookup finds the member that the registry object inherits
    from Object.prototype: the URL is fetched, the model is called and
    the response is a 200. *)
Theorem inherited_language_key_is_accepted :
  ("constructor" ∉ language_keys) ∧
  Part000.summarize Sample.constructor_request Sample.newsroom St0 =
    (Normal tt,
     {| calls := [AxiosGet Sample.news_url;
                  ChatCreate (Part000Spec.summary_call Sample.constructor_request
                                "Rain is expected.")];
        sent := [{| status := 200; payload := Summary (Some "- Rain is expected") |}] |}) ∧
  Server.summarize Sample.constructor_request Sample.newsroom St0 =
    (Normal tt,
     {| calls := [AxiosGet Sample.news_url;
                  ChatCreate (ServerSpec.summary_call Sample.constructor_request
                                "Rain is expected.")];
        sent := [{| status := 200; payload := Summary (Some "- Rain is expected") |}] |}).
Proof.
  split_and!.
  - intros H. repeat (apply elem_of_cons in H as [H|H]; [discriminate H|]).
    by apply elem_of_nil in H.
  - vm_compute. reflexivity.
  - vm_compute. reflexivity.
Qed.

(** The part of C3 that the code does: a missing or empty url, a language
    key that is neither supported nor a property name of Object.prototype,
    and likewise a length key, are rejected with the three messages
    before any network call. *)
Lemma validation_rejects_before_network body w :
  (url_of body = None →
   Part000.summarize body w St0 = rejection "URL is required" ∧
   Server.summarize body w St0 = rejection "URL is required") ∧
  (is_Some (url_of body) →
   language_of body ∉ language_keys →
   language_of body ∉ Js.object_prototype →
   Part000.summarize body w St0 = rejection "Invalid language selected" ∧
   Server.summarize body w St0 = rejection "Invalid language selected") ∧
  (is_Some (url_of body) →
   language_of body ∈ language_keys →
   summaryLength_of body ∉ tiers →
   summaryLength_of body ∉ Js.object_prototype →
   Part000.summarize body w St0 = rejection "Invalid summary length selected" ∧
   Server.summarize body w St0 = rejection "Invalid summary length selected").
Proof.
  split_and!.
  - intros Hu. pose proof (rejected_request_run body w) as H.
    unfold Part000Spec.validated in H. rewrite Hu in H.
    rewrite bool_decide_eq_true_2 in H by done. by apply H.
  - intros [url Hu] Hk Hp. pose proof (rejected_request_run body w) as H.
    assert (Part000Spec.language_accepted (language_of body) = false) as Hl.
    { unfold Part000Spec.language_accepted. rewrite get_unknown; [done| |done].
      by apply not_elem_of_list_to_map_1. }
    unfold Part000Spec.validated in H. rewrite Hu, Hl in H.
    rewrite bool_decide_eq_false_2 in H by done. by apply H.
  - intros [url Hu] Hk Ht Hp. pose proof (rejected_request_run body w) as H.
    assert (Part000Spec.language_accepted (language_of body) = true) as Hl.
    { apply LANGUAGES_keys in Hk as [cfg Hc]. by apply (LANGUAGES_accepts _ cfg). }
    assert (Part000Spec.length_accepted (summaryLength_of body) = false) as Hn.
    { unfold Part000Spec.length_accepted. rewrite get_unknown; [done| |done].
      by apply not_elem_of_list_to_map_1. }
    unfold Part000Spec.validated in H. rewrite Hu, Hl, Hn in H.
    rewrite bool_decide_eq_false_2 in H by done. by apply H.
Qed.




(** C2 (counterexample). With a valid request and an unreachable URL both
    variants answer 500, not a 400-class status. *)
Lemma unreachable_url_answers_500 :
  Part000Spec.validated Sample.english_request = Some Sample.news_url ∧
  axios_get Sample.offline [] Sample.news_url = inl "getaddrinfo ENOTFOUND" ∧
  Part000.summarize Sample.english_request Sample.offline St0 =
    (Normal tt,
     {| calls := [AxiosGet Sample.news_url];
        sent := [{| status := 500;
                    payload := ErrorDetails "Failed to generate summary"
                                 "Failed to extract article content" |}] |}) ∧
  Server.summarize Sample.english_request Sample.offline St0 =
    (Normal tt,
     {| calls := [AxiosGet Sample.news_url];
        sent := [{| status := 500;
                    payload := ErrorDetails "Failed to generate summary" extract_failed |}] |}).
Proof. split_and!; vm_compute; reflexivity. Qed.

(** C2 (amended). For a validated request whose extraction fails, the
    only network call is the fetch, so no model call is made, and the
    response is: in [Part000], the 500 error with details "Failed to
    extract article content" when the fetch is rejected or the parser
    throws, and a 400 with "Could not extract article content" when no
    article is found; in [Server], the 500 error with the extractor's
    message in all three cases. *)
Theorem extraction_failure_response w body url :
  Part000Spec.validated body = Some url →
  (∀ r, Part000Errors.extraction_error (fetched_article w id url) = Some r →
        Part000.summarize body w St0 = (Normal tt, {| calls := [AxiosGet url]; sent := [r] |})) ∧
  (∀ r, ServerErrors.extraction_error (fetched_article w (remove_unwanted w) url) = Some r →
        Server.summarize body w St0 = (Normal tt, {| calls := [AxiosGet url]; sent := [r] |})).
Proof.
  intros Hv. split; intros r; unfold fetched_article.
  - rewrite (summarize_validated _ _ _ _ Hv), extract_run. simpl calls.
    destruct (axios_get w [] url) as [e|data]; cbn [id]; [by intros [= <-]|].
    destruct (readability_parse w data) as [e| |text]; intros [= <-]; reflexivity.
  - rewrite <- validated_agree in Hv.
    rewrite (server_summarize_validated _ _ _ _ Hv), server_extract_run. simpl calls.
    destruct (axios_get w [] url) as [e|data]; [by intros [= <-]|].
    destruct (readability_parse w _) as [e| |text]; intros [= <-]; reflexivity.
Qed.

Lemma extraction_failure_response_witness :
  Part000.summarize Sample.english_request Sample.offline St0 =
    (Normal tt,
     {| calls := [AxiosGet Sample.news_url];
        sent := [failure "Failed to extract article content"] |}) ∧
  Server.summarize Sample.english_request Sample.blank_page St0 =
    (Normal tt, {| calls := [AxiosGet Sample.news_url]; sent := [failure extract_failed] |}).
Proof.
  split.
  - apply (extraction_failure_response Sample.offline Sample.english_request Sample.news_url);
      reflexivity.
  - apply (extraction_failure_response Sample.blank_page Sample.english_request Sample.news_url);
      reflexivity.
Defined.

(** C5 (counterexample). In [Server], when the parser finds no article
    the response is the 500 error, not a 400-class one. *)
Lemma server_absent_article_answers_500 :
  ServerSpec.validated Sample.english_request = Some Sample.news_url ∧
  fetched_article Sample.blank_page (remove_unwanted Sample.blank_page) Sample.news_url =
    Some NoArticle ∧
  Server.summarize Sample.english_request Sample.blank_page St0 =
    (Normal tt,
     {| calls := [AxiosGet Sample.news_url];
        sent := [{| status := 500;
                    payload := ErrorDetails "Failed to generate summary" extract_failed |}] |}).
Proof. split_and!; vm_compute; reflexivity. Qed.

(** [Server] has no check of the extracted text: a page whose text is
    white space only is trimmed to the empty string and summarized. *)
Lemma server_summarizes_empty_text :
  Server.summarize Sample.english_request Sample.white_page St0 =
    (Normal tt,
     {| calls := [AxiosGet Sample.news_url;
                  ChatCreate (ServerSpec.summary_call Sample.english_request "")];
        sent := [{| status := 200; payload := Summary (Some "- Rain is expected") |}] |}).
Proof. vm_compute. reflexivity. Qed.

(** C5 (amended). For a validated request whose page is fetched: in
    [Part000], when the parser finds no article or the article text is the
    empty string, the response is the 400 error "Could not extract article
    content" and the fetch is the only network call, so the summarization
    step is not reached; in [Server], when the parser finds no article,
    the response is the 500 error with the extractor's message and the
    fetch is the only network call. *)
Theorem empty_article_is_extraction_failure w body url data :
  Part000Spec.validated body = Some url →
  axios_get w [] url = inr data →
  (readability_parse w data = NoArticle ∨ readability_parse w data = Article "" →
   Part000.summarize body w St0 =
     (Normal tt,
      {| calls := [AxiosGet url];
         sent := [{| status := 400; payload := Error "Could not extract article content" |}] |})) ∧
  (readability_parse w (remove_unwanted w data) = NoArticle →
   Server.summarize body w St0 =
     (Normal tt, {| calls := [AxiosGet url]; sent := [failure extract_failed] |})).
Proof.
  intros Hv Hf. split.
  - intros Hr. rewrite (summarize_validated _ _ _ _ Hv), extract_run. simpl calls.
    rewrite Hf. by destruct Hr as [-> | ->].
  - intros Hr. rewrite <- validated_agree in Hv.
    rewrite (server_summarize_validated _ _ _ _ Hv), server_extract_run. simpl calls.
    by rewrite Hf, Hr.
Qed.

Lemma empty_article_is_extraction_failure_witness :
  Part000.summarize Sample.english_request Sample.empty_article St0 =
    (Normal tt,
     {| calls := [AxiosGet Sample.news_url];
        sent := [{| status := 400; payload := Error "Could not extract article content" |}] |}) ∧
  Server.summarize Sample.english_request Sample.blank_page St0 =
    (Normal tt, {| calls := [AxiosGet Sample.news_url]; sent := [failure extract_failed] |}).
Proof.
  split.
  - eapply (empty_article_is_extraction_failure Sample.empty_article Sample.english_request);
      [reflexivity|reflexivity|right; reflexivity].
  - eapply (empty_article_is_extraction_failure Sample.blank_page Sample.english_request);
      reflexivity.
Defined.

(** * Further properties of the code *)

(** ** The handlers read three fields only *)

(** Two bodies with the same url, language and summaryLength run alike. *)
Lemma same_fields_same_run (b1 b2 : gmap string string) :
  b1 !! "url" = b2 !! "url" →
  b1 !! "language" = b2 !! "language" →
  b1 !! "summaryLength" = b2 !! "summaryLength" →
  Part000.summarize b1 = Part000.summarize b2 ∧ Server.summarize b1 = Server.summarize b2.
Proof.
  intros H1 H2 H3.
  unfold Part000.summarize, Part000.summarize_try, Server.summarize, Server.summarize_try.
  by rewrite H1, H2, H3.
Qed.

(** X1. A field of the body other than url, language and summaryLength
    has no effect on the run of either handler. *)
Theorem unread_fields_are_ignored (body : gmap string string) key value :
  key ∉ ["url"; "language"; "summaryLength"] →
  Part000.summarize (<[key := value]> body) = Part000.summarize body ∧
  Server.summarize (<[key := value]> body) = Server.summarize body.
Proof.
  intros Hk.
  assert (key ≠ "url" ∧ key ≠ "language" ∧ key ≠ "summaryLength") as (H1 & H2 & H3).
  { split_and!; intros ->; apply Hk; set_solver. }
  apply same_fields_same_run; by rewrite lookup_insert_ne.
Qed.

Lemma unread_fields_are_ignored_witness :
  Part000.summarize (<["length" := "detailed"]> Sample.german_request) =
    Part000.summarize Sample.german_request ∧
  Server.summarize (<["length" := "detailed"]> Sample.german_request) =
    Server.summarize Sample.german_request.
Proof.
  apply (unread_fields_are_ignored Sample.german_request "length" "detailed").
  apply (bool_decide_unpack _). vm_compute. exact I.
Defined.

(** X2. The form sends its length choice under the key [length], which
    the handlers do not read: whatever length is selected, the server
    runs as for the same url and language with no length at all, and so
    summarizes with the medium tier. *)
Theorem form_length_choice_is_ignored (st : Client.State) :
  let body : gmap string string :=
    {[ "url" := Client.url st; "language" := Client.language st ]} in
  Part000.summarize (Client.request_body st) = Part000.summarize body ∧
  Server.summarize (Client.request_body st) = Server.summarize body ∧
  summaryLength_of (Client.request_body st) = "medium" ∧
  (∀ text, max_tokens (Part000Spec.summary_call (Client.request_body st) text) = Some 350) ∧
  (∀ text, max_tokens (ServerSpec.summary_call (Client.request_body st) text) = Some 200).
Proof.
  assert (summaryLength_of (Client.request_body st) = "medium") as Hm by reflexivity.
  cbn zeta.
  destruct (same_fields_same_run (Client.request_body st)
              {[ "url" := Client.url st; "language" := Client.language st ]})
    as [HP HS]; [reflexivity..|].
  split_and!; [exact HP|exact HS|exact Hm| |].
  - intros text. unfold Part000Spec.summary_call. rewrite Hm. reflexivity.
  - intros text. unfold ServerSpec.summary_call. rewrite Hm. reflexivity.
Qed.

(** ** The network calls of a request *)

Ltac logged reqs := exists reqs; split_and!; [eassumption | reflexivity | simpl; lia].

(** X3. Whatever the body and the world, a request makes no network call
    at all, or fetches the url of the body, exactly once and first, and
    then calls the model at most twice in [Part000] and at most once in
    [Server]; no other URL is ever fetched and the model is never called
    before the fetch. *)
Theorem call_discipline body w :
  (calls (snd (Part000.summarize body w St0)) = [] ∨
   ∃ url reqs,
     url_of body = Some url ∧
     calls (snd (Part000.summarize body w St0)) = AxiosGet url :: (ChatCreate <$> reqs) ∧
     (length reqs ≤ 2)%nat) ∧
  (calls (snd (Server.summarize body w St0)) = [] ∨
   ∃ url reqs,
     url_of body = Some url ∧
     calls (snd (Server.summarize body w St0)) = AxiosGet url :: (ChatCreate <$> reqs) ∧
     (length reqs ≤ 1)%nat).
Proof.
  destruct (Part000Spec.validated body) as [url|] eqn:Hv.
  - destruct (validated_inv _ _ Hv) as (Hu & Hl & _). split; right; exists url.
    + rewrite (summarize_validated _ _ _ _ Hv), extract_run. simpl calls.
      destruct (axios_get w [] url) as [e|data]; [logged (@nil ChatRequest)|].
      destruct (readability_parse w data) as [e| |text]; [(logged (@nil ChatRequest))..|].
      destruct (Js.truthy_string text); [|logged (@nil ChatRequest)]. cbn zeta.
      unfold log_call. simpl calls.
      destruct (chat_completions_create w [AxiosGet url] _) as [e|summary].
      { eexists [_]. split_and!; [eassumption|reflexivity|simpl; lia]. }
      destruct (language_accepted_cases _ Hl) as [[cfg Hc]|Hi].
      * rewrite (translateText_own _ _ _ _ _ Hc).
        destruct (Part000.translationPrompt cfg) as [prompt|].
        -- unfold log_call. simpl calls.
           destruct (chat_completions_create w [_; _] _) as [e|translated];
             (eexists [_; _]; split_and!; [eassumption|reflexivity|simpl; lia]).
        -- eexists [_]. split_and!; [eassumption|reflexivity|simpl; lia].
      * rewrite (translateText_inherited _ _ _ _ Hi).
        eexists [_]. split_and!; [eassumption|reflexivity|simpl; lia].
    + rewrite <- validated_agree in Hv.
      rewrite (server_summarize_validated _ _ _ _ Hv), server_extract_run. simpl calls.
      destruct (axios_get w [] url) as [e|data]; [logged (@nil ChatRequest)|].
      destruct (readability_parse w _) as [e| |text]; [(logged (@nil ChatRequest))..|]. cbn zeta.
      unfold log_call. simpl calls.
      destruct (chat_completions_create w [AxiosGet url] _) as [e|[content|]];
        (eexists [_]; split_and!; [eassumption|reflexivity|simpl; lia]).
  - destruct (rejected_request_run body w Hv) as [-> ->]. by split; left.
Qed.

(** ** The paths through [Part000] *)

(** X4. In [Part000] an English request is never translated: once
    validated, with a non-empty article text and an answer of the model,
    the fetch and one model call are the only network calls and the
    response is a 200 carrying the content of that answer unchanged, which
    is [null] when the model gave no content. *)
Theorem english_request_is_not_translated w body url data text summary :
  Part000Spec.validated body = Some url →
  language_of body = "english" →
  axios_get w [] url = inr data →
  readability_parse w data = Article text →
  Js.truthy_string text = true →
  chat_completions_create w [AxiosGet url] (Part000Spec.summary_call body text) = inr summary →
  Part000.summarize body w St0 =
    (Normal tt,
     {| calls := [AxiosGet url; ChatCreate (Part000Spec.summary_call body text)];
        sent := [{| status := 200; payload := Summary summary |}] |}).
Proof.
  intros Hv He Hf Hr Ht Hs.
  rewrite (summarize_validated _ _ _ _ Hv), extract_run. simpl calls.
  rewrite Hf, Hr, Ht. cbn zeta. unfold log_call at 1. simpl calls. rewrite Hs.
  rewrite He. by rewrite (translateText_own _ _ _ "english" Part000.english).
Qed.

Lemma english_request_is_not_translated_witness :
  Part000.summarize Sample.english_request Sample.newsroom St0 =
    (Normal tt,
     {| calls := [AxiosGet Sample.news_url;
                  ChatCreate (Part000Spec.summary_call Sample.english_request "Rain is expected.")];
        sent := [{| status := 200; payload := Summary (Some "- Rain is expected") |}] |}).
Proof.
  eapply (english_request_is_not_translated Sample.newsroom Sample.english_request);
    reflexivity.
Defined.

(** X5. In [Part000], when the backend rejects the summarization call,
    the response is the 500 error whose details are the message of the
    backend, unchanged, and no translation call is made. *)
Theorem summarization_failure_details w body url data text message :
  Part000Spec.validated body = Some url →
  axios_get w [] url = inr data →
  readability_parse w data = Article text →
  Js.truthy_string text = true →
  chat_completions_create w [AxiosGet url] (Part000Spec.summary_call body text) = inl message →
  Part000.summarize body w St0 =
    (Normal tt,
     {| calls := [AxiosGet url; ChatCreate (Part000Spec.summary_call body text)];
        sent := [failure message] |}).
Proof.
  intros Hv Hf Hr Ht Hs.
  rewrite (summarize_validated _ _ _ _ Hv), extract_run. simpl calls.
  rewrite Hf, Hr, Ht. cbn zeta. unfold log_call at 1. simpl calls. by rewrite Hs.
Qed.

Lemma summarization_failure_details_witness :
  Part000.summarize Sample.german_request Sample.model_down St0 =
    (Normal tt,
     {| calls := [AxiosGet Sample.news_url;
                  ChatCreate (Part000Spec.summary_call Sample.german_request "Rain is expected.")];
        sent := [failure "401 Incorrect API key provided"] |}).
Proof.
  eapply (summarization_failure_details Sample.model_down Sample.german_request); reflexivity.
Defined.

(** ** The path through [Server] *)

(** X6. In [Server], once a request is validated and an article is
    parsed, the text is trimmed and sent to the model whatever it holds,
    and the answer decides the response: a rejected call gives the 500
    error with the backend's message as details, a [null] content gives
    the 500 error with the message of the failed [trim], and a content
    gives a 200 with the content trimmed. *)
Theorem server_single_call_outcome w body url data text :
  ServerSpec.validated body = Some url →
  axios_get w [] url = inr data →
  readability_parse w (remove_unwanted w data) = Article text →
  let req := ServerSpec.summary_call body (Js.trim text) in
  Server.summarize body w St0 =
    (Normal tt,
     {| calls := [AxiosGet url; ChatCreate req];
        sent :=
          [match chat_completions_create w [AxiosGet url] req with
           | inl message => failure message
           | inr None => failure "Cannot read properties of null (reading 'trim')"
           | inr (Some content) =>
               {| status := 200; payload := Summary (Some (Js.trim content)) |}
           end] |}).
Proof.
  intros Hv Hf Hr. cbn zeta.
  rewrite (server_summarize_validated _ _ _ _ Hv), server_extract_run. simpl calls.
  rewrite Hf, Hr. cbn zeta. unfold log_call. simpl calls.
  by destruct (chat_completions_create w [AxiosGet url] _) as [e|[content|]].
Qed.

Lemma server_single_call_outcome_witness :
  Server.summarize Sample.english_request Sample.null_content St0 =
    (Normal tt,
     {| calls := [AxiosGet Sample.news_url;
                  ChatCreate (ServerSpec.summary_call Sample.english_request "Rain is expected.")];
        sent := [failure "Cannot read properties of null (reading 'trim')"] |}).
Proof.
  apply (server_single_call_outcome Sample.null_content Sample.english_request
           Sample.news_url
           "<html><body><article>Rain is expected.</article></body></html>"
           "  Rain is expected. ");
    reflexivity.
Defined.

(** ** Keys the validation rejects *)

(** X7. A request with a url whose language key is neither one of the ten
    supported keys nor a property name of Object.prototype is answered by
    the 400 error "Invalid language selected", whatever its length key,
    before any network call, in both variants. *)
Theorem unknown_language_is_rejected body w url :
  url_of body = Some url →
  language_of body ∉ language_keys →
  language_of body ∉ Js.object_prototype →
  Part000.summarize body w St0 = rejection "Invalid language selected" ∧
  Server.summarize body w St0 = rejection "Invalid language selected".
Proof.
  intros Hu Hk Hp. pose proof (rejected_request_run body w) as H.
  assert (Part000Spec.language_accepted (language_of body) = false) as Hl.
  { unfold Part000Spec.language_accepted. rewrite get_unknown; [done| |done].
    by apply not_elem_of_list_to_map_1. }
  unfold Part000Spec.validated in H. rewrite Hu, Hl in H.
  rewrite bool_decide_eq_false_2 in H by done. by apply H.
Qed.

Lemma unknown_language_is_rejected_witness :
  Part000.summarize (<["language" := "klingon"]> Sample.english_request) Sample.newsroom St0 =
    rejection "Invalid language selected" ∧
  Server.summarize (<["language" := "klingon"]> Sample.english_request) Sample.newsroom St0 =
    rejection "Invalid language selected".
Proof.
  apply (unknown_language_is_rejected _ _ Sample.news_url); [reflexivity| |];
    apply (bool_decide_unpack _); vm_compute; exact I.
Defined.

(** X8. A request with a url and a supported language whose length key is
    neither short, medium or detailed nor a property name of
    Object.prototype is answered by the 400 error "Invalid summary length
    selected" before any network call, in both variants. *)
Theorem unknown_length_is_rejected body w url :
  url_of body = Some url →
  language_of body ∈ language_keys →
  summaryLength_of body ∉ tiers →
  summaryLength_of body ∉ Js.object_prototype →
  Part000.summarize body w St0 = rejection "Invalid summary length selected" ∧
  Server.summarize body w St0 = rejection "Invalid summary length selected".
Proof.
  intros Hu Hk Ht Hp. pose proof (rejected_request_run body w) as H.
  assert (Part000Spec.language_accepted (language_of body) = true) as Hl.
  { apply LANGUAGES_keys in Hk as [cfg Hc]. by apply (LANGUAGES_accepts _ cfg). }
  assert (Part000Spec.length_accepted (summaryLength_of body) = false) as Hn.
  { unfold Part000Spec.length_accepted. rewrite get_unknown; [done| |done].
    by apply not_elem_of_list_to_map_1. }
  unfold Part000Spec.validated in H. rewrite Hu, Hl, Hn in H.
  rewrite bool_decide_eq_false_2 in H by done. by apply H.
Qed.

Lemma unknown_length_is_rejected_witness :
  Part000.summarize (<["summaryLength" := "long"]> Sample.german_request) Sample.newsroom St0 =
    rejection "Invalid summary length selected" ∧
  Server.summarize (<["summaryLength" := "long"]> Sample.german_request) Sample.newsroom St0 =
    rejection "Invalid summary length selected".
Proof.
  apply (unknown_length_is_rejected _ _ Sample.news_url); [reflexivity| | |];
    apply (bool_decide_unpack _); vm_compute; exact I.
Defined.

(** ** The form and the registries *)

(** X9. Every language the form offers is a key of both server
    registries, so it passes the language check of either variant, and
    its code in the form is the code [Part000] registers for it. *)
Theorem form_languages_are_supported key option :
  Client.LANGUAGES !! key = Some option →
  (∃ cfg, Part000.LANGUAGES !! key = Some cfg ∧ Part000.code cfg = Client.code option) ∧
  (∃ prompt, Server.LANGUAGE_PROMPTS !! key = Some prompt) ∧
  Part000Spec.language_accepted key = true ∧
  ServerSpec.language_accepted key = true.
Proof.
  intros H. apply elem_of_list_to_map_2 in H.
  repeat (apply elem_of_cons in H as [H|H];
          [inversion H; subst; clear H; split_and!; [eexists; split; reflexivity|by eexists|reflexivity..]|]).
  by apply elem_of_nil in H.
Qed.

Lemma form_languages_are_supported_witness :
  (∃ cfg, Part000.LANGUAGES !! "arabic" = Some cfg ∧ Part000.code cfg = "ar") ∧
  (∃ prompt, Server.LANGUAGE_PROMPTS !! "arabic" = Some prompt) ∧
  Part000Spec.language_accepted "arabic" = true ∧
  ServerSpec.language_accepted "arabic" = true.
Proof.
  apply (form_languages_are_supported "arabic" {| Client.name := "العربية"; Client.code := "ar" |}).
  reflexivity.
Defined.

(** ** White space *)

Section trimming.
Import Js.
Implicit Types (p bs : list nat) (ps : list (list nat)).

Lemma strip_prefix_Some p bs rest : strip_prefix p bs = Some rest ↔ bs = (p ++ rest)%list.
Proof.
  revert bs. induction p as [|x p IH]; intros bs; simpl.
  - split; [by intros [= ->]|by intros ->].
  - destruct bs as [|b bs]; [done|].
    destruct (Nat.eqb_spec x b) as [->|Hne].
    + rewrite IH. split; [by intros ->|by intros [= ->]].
    + split; [done|]. intros [= -> _]. done.
Qed.

Lemma strip_any_Some ps bs rest :
  strip_any ps bs = Some rest → ∃ p, p ∈ ps ∧ bs = (p ++ rest)%list.
Proof.
  induction ps as [|p ps IH]; simpl; [done|].
  destruct (strip_prefix p bs) as [r|] eqn:E.
  - intros [= ->]. exists p. split; [by left|]. by apply strip_prefix_Some.
  - intros (q & Hq & ->)%IH. exists q. split; [by right|done].
Qed.

Lemma strip_any_None ps bs :
  strip_any ps bs = None ↔ ∀ p rest, p ∈ ps → bs ≠ (p ++ rest)%list.
Proof.
  induction ps as [|p ps IH]; simpl.
  - split; [|done]. intros _ p rest H. by apply elem_of_nil in H.
  - destruct (strip_prefix p bs) as [r|] eqn:E.
    + split; [done|]. intros H. apply strip_prefix_Some in E.
      exfalso. apply (H p r); [by left|done].
    + rewrite IH. split.
      * intros H q rest [->|Hq]%elem_of_cons; [|by apply H].
        intros Heq%strip_prefix_Some. congruence.
      * intros H q rest Hq. apply H. by right.
Qed.

(** The prefixes of a list that does not open with a pattern do not
    either. *)
Lemma strip_any_None_prefix ps l1 l2 :
  strip_any ps (l1 ++ l2) = None → strip_any ps l1 = None.
Proof.
  rewrite !strip_any_None. intros H p rest Hp ->.
  apply (H p (rest ++ l2)%list Hp). by rewrite app_assoc.
Qed.

Lemma trim_front_fixed n ps bs : strip_any ps bs = None → trim_front n ps bs = bs.
Proof. intros H. destruct n; simpl; [done|]. by rewrite H. Qed.

Lemma trim_front_suffix n ps bs : ∃ pre, bs = (pre ++ trim_front n ps bs)%list.
Proof.
  revert bs. induction n as [|n IH]; intros bs; simpl; [by exists []|].
  destruct (strip_any ps bs) as [rest|] eqn:E; [|by exists []].
  destruct (strip_any_Some _ _ _ E) as (p & _ & ->).
  destruct (IH rest) as [pre Hpre]. exists (p ++ pre)%list.
  rewrite <- app_assoc. by rewrite <- Hpre.
Qed.

(** With patterns that are not empty, enough fuel strips every leading
    pattern. *)
Lemma trim_front_done n ps bs :
  [] ∉ ps → (length bs ≤ n)%nat → strip_any ps (trim_front n ps bs) = None.
Proof.
  intros Hne. revert bs. induction n as [|n IH]; intros bs Hlen; simpl.
  - destruct bs; [|simpl in Hlen; lia].
    apply strip_any_None. intros p rest Hp Heq.
    symmetry in Heq. apply app_eq_nil in Heq as [-> _]. done.
  - destruct (strip_any ps bs) as [rest|] eqn:E; [|done].
    destruct (strip_any_Some _ _ _ E) as (p & Hp & ->).
    apply IH. rewrite length_app in Hlen.
    destruct p; [done|]. simpl in Hlen. lia.
Qed.

(** More fuel than the length changes nothing. *)
Lemma trim_front_fuel n m ps bs :
  [] ∉ ps → (length bs ≤ n)%nat → (length bs ≤ m)%nat →
  trim_front n ps bs = trim_front m ps bs.
Proof.
  intros Hne. revert m bs. induction n as [|n IH]; intros m bs Hn Hm.
  - destruct bs; [|simpl in Hn; lia]. simpl. destruct m; simpl; [done|].
    destruct (strip_any ps []) as [rest|] eqn:E; [|done].
    destruct (strip_any_Some _ _ _ E) as (p & Hp & Heq).
    symmetry in Heq. apply app_eq_nil in Heq as [-> _]. done.
  - simpl. destruct (strip_any ps bs) as [rest|] eqn:E.
    + destruct (strip_any_Some _ _ _ E) as (p & Hp & Heq).
      assert (length rest < length bs)%nat as Hlt.
      { rewrite Heq, length_app. destruct p; [done|]. simpl. lia. }
      destruct m; [lia|]. simpl. rewrite E. apply IH; lia.
    + symmetry. by apply trim_front_fixed.
Qed.

Lemma white_space_nonempty : [] ∉ white_space.
Proof. apply (bool_decide_unpack _). vm_compute. exact I. Qed.

Lemma rev_white_space_nonempty : [] ∉ map (@rev nat) white_space.
Proof. apply (bool_decide_unpack _). vm_compute. exact I. Qed.

Lemma bytes_of_string_bounded s : Forall (λ b, (b < 256)%nat) (bytes_of_string s).
Proof.
  unfold bytes_of_string. apply Forall_fmap, Forall_forall. intros a _.
  apply Ascii.nat_ascii_bounded.
Qed.

Lemma bytes_of_string_of_bytes bs :
  Forall (λ b, (b < 256)%nat) bs → bytes_of_string (string_of_bytes bs) = bs.
Proof.
  unfold bytes_of_string, string_of_bytes. intros H.
  rewrite String.list_ascii_of_string_of_list_ascii.
  induction H as [|b bs Hb _ IH]; simpl; [done|].
  rewrite Ascii.nat_ascii_embedding by done. by rewrite IH.
Qed.

Lemma string_of_bytes_of_string s : string_of_bytes (bytes_of_string s) = s.
Proof.
  unfold bytes_of_string, string_of_bytes.
  rewrite <- (String.string_of_list_ascii_of_string s) at 2. f_equal.
  induction (String.list_ascii_of_string s) as [|a l IH]; simpl; [done|].
  by rewrite Ascii.ascii_nat_embedding, IH.
Qed.

Lemma bytes_of_string_app s1 s2 :
  bytes_of_string (s1 +:+ s2) = (bytes_of_string s1 ++ bytes_of_string s2)%list.
Proof.
  unfold bytes_of_string. induction s1 as [|a s1 IH]; simpl; [done|]. by rewrite IH.
Qed.

Lemma trim_bytes s : trim s = string_of_bytes (trimmed_bytes (bytes_of_string s)).
Proof. reflexivity. Qed.

Lemma trimmed_bytes_spec bs :
  strip_any white_space (trimmed_bytes bs) = None ∧
  strip_any (map (@rev nat) white_space) (rev (trimmed_bytes bs)) = None ∧
  ∃ pre post, bs = (pre ++ trimmed_bytes bs ++ post)%list.
Proof.
  unfold trimmed_bytes.
  set (front := trim_front (length bs) white_space bs).
  set (back := trim_front (length front) _ (rev front)).
  assert (strip_any white_space front = None) as Hf
    by (by apply trim_front_done; [apply white_space_nonempty|]).
  assert (strip_any (map (@rev nat) white_space) back = None) as Hb.
  { apply trim_front_done; [apply rev_white_space_nonempty|]. by rewrite length_rev. }
  destruct (trim_front_suffix (length bs) white_space bs) as [pre Hpre].
  destruct (trim_front_suffix (length front) (map (@rev nat) white_space) (rev front))
    as [post Hpost].
  fold front in Hpre. fold back in Hpost.
  assert (front = (rev back ++ rev post)%list) as Hfront.
  { rewrite <- (rev_involutive front), Hpost. by rewrite rev_app_distr. }
  split_and!.
  - apply (strip_any_None_prefix _ _ (rev post)). by rewrite <- Hfront.
  - by rewrite rev_involutive.
  - exists pre, (rev post). by rewrite <- Hfront.
Qed.

Lemma trimmed_bytes_fixed bs :
  strip_any white_space bs = None →
  strip_any (map (@rev nat) white_space) (rev bs) = None →
  trimmed_bytes bs = bs.
Proof.
  intros Hf Hb. unfold trimmed_bytes.
  rewrite (trim_front_fixed _ _ _ Hf), (trim_front_fixed _ _ _ Hb).
  apply rev_involutive.
Qed.

Lemma trimmed_bytes_bounded bs :
  Forall (λ b, (b < 256)%nat) bs → Forall (λ b, (b < 256)%nat) (trimmed_bytes bs).
Proof.
  intros H. destruct (trimmed_bytes_spec bs) as (_ & _ & pre & post & Heq).
  rewrite Heq in H. apply Forall_app in H as [_ H]. by apply Forall_app in H as [H _].
Qed.

(** Trimming what is trimmed changes nothing. *)
Lemma trim_idempotent s : trim (trim s) = trim s.
Proof.
  rewrite !trim_bytes. f_equal.
  rewrite bytes_of_string_of_bytes
    by apply trimmed_bytes_bounded, bytes_of_string_bounded.
  destruct (trimmed_bytes_spec (bytes_of_string s)) as (Hf & Hb & _).
  by apply trimmed_bytes_fixed.
Qed.

End trimming.

(** ** The responses of a validated request *)

Lemma part000_validated_response body w url :
  Part000Spec.validated body = Some url →
  ∃ r, sent (snd (Part000.summarize body w St0)) = [r] ∧
       (r = {| status := 400; payload := Error "Could not extract article content" |} ∨
        (∃ details, r = failure details) ∨
        (∃ summary, r = {| status := 200; payload := Summary summary |})).
Proof.
  intros Hv. destruct (validated_inv _ _ Hv) as (_ & Hl & _).
  rewrite (summarize_validated _ _ _ _ Hv), extract_run. simpl calls.
  destruct (axios_get w [] url) as [e|data]; [eexists; split; [reflexivity|eauto]|].
  destruct (readability_parse w data) as [e| |text];
    [eexists; split; [reflexivity|eauto]..|].
  destruct (Js.truthy_string text); [|eexists; split; [reflexivity|eauto]]. cbn zeta.
  destruct (chat_completions_create w _ _) as [e|summary];
    [eexists; split; [reflexivity|eauto]|].
  destruct (language_accepted_cases _ Hl) as [[cfg Hc]|Hi].
  - rewrite (translateText_own _ _ _ _ _ Hc).
    destruct (Part000.translationPrompt cfg) as [prompt|];
      [|eexists; split; [reflexivity|eauto]].
    destruct (chat_completions_create w _ _) as [e|translated];
      eexists; (split; [reflexivity|eauto]).
  - rewrite (translateText_inherited _ _ _ _ Hi). eexists; split; [reflexivity|eauto].
Qed.

Lemma server_validated_response body w url :
  ServerSpec.validated body = Some url →
  ∃ r, sent (snd (Server.summarize body w St0)) = [r] ∧
       ((∃ details, r = failure details) ∨
        (∃ content, r = {| status := 200; payload := Summary (Some (Js.trim content)) |})).
Proof.
  intros Hv.
  rewrite (server_summarize_validated _ _ _ _ Hv), server_extract_run. simpl calls.
  destruct (axios_get w [] url) as [e|data]; [eexists; split; [reflexivity|eauto]|].
  destruct (readability_parse w _) as [e| |text];
    [eexists; split; [reflexivity|eauto]..|]. cbn zeta.
  destruct (chat_completions_create w _ _) as [e|[content|]];
    eexists; (split; [reflexivity|eauto]).
Qed.

(** ** The summaries [Server] sends *)

(** X10. Every 200 response of [Server] carries a summary that is a
    string, never [null], with no white space at its start or end:
    trimming it again changes nothing. *)
Theorem server_summary_is_trimmed body w r :
  r ∈ sent (snd (Server.summarize body w St0)) →
  status r = 200 →
  ∃ summary, payload r = Summary (Some summary) ∧ Js.trim summary = summary.
Proof.
  intros Hr Hs. destruct (ServerSpec.validated body) as [url|] eqn:Hv.
  - destruct (server_validated_response body w url Hv) as (r' & Hsent & Hcases).
    rewrite Hsent in Hr. apply list_elem_of_singleton in Hr as ->.
    destruct Hcases as [[details ->]|[content ->]]; [done|].
    eexists. split; [reflexivity|]. apply trim_idempotent.
  - rewrite validated_agree in Hv.
    destruct (rejected_request_run body w Hv) as [_ Hrun]. rewrite Hrun in Hr.
    apply list_elem_of_singleton in Hr as ->. done.
Qed.

Lemma server_summary_is_trimmed_witness :
  ∃ summary,
    Summary (Some "- Rain is expected") = Summary (Some summary) ∧ Js.trim summary = summary.
Proof.
  apply (server_summary_is_trimmed Sample.english_request Sample.newsroom
           {| status := 200; payload := Summary (Some "- Rain is expected") |}).
  - apply list_elem_of_singleton. vm_compute. reflexivity.
  - reflexivity.
Defined.


(** ** The form *)

Lemma take_app_take {A} n (a b : list A) : take n (a ++ take n b) = take n (a ++ b).
Proof. rewrite !take_app, take_take. f_equal. f_equal. lia. Qed.

Lemma after_additions_take (entries l : list Client.Entry.t) :
  ClientSpec.after_additions (take 5 l) entries = take 5 (reverse entries ++ l).
Proof.
  revert l. induction entries as [|x entries IH]; intros l; [done|].
  unfold ClientSpec.after_additions in *. simpl. unfold Client.add_recent at 2.
  rewrite IH, reverse_cons.
  change (x :: take 5 l) with ([x] ++ take 5 l)%list. rewrite app_assoc. apply take_app_take.
Qed.

(** X11. After one or more successful submissions the list of recent
    summaries is the list of the entries added, newest first, followed by
    the earlier list, cut to its first five items; so it never holds more
    than five items and its first item is the entry added last. *)
Theorem recent_summaries_hold_latest_five (prev : list Client.Entry.t) entry entries :
  ClientSpec.after_additions prev (entry :: entries) =
    take 5 (reverse (entry :: entries) ++ prev) ∧
  (length (ClientSpec.after_additions prev (entry :: entries)) ≤ 5)%nat ∧
  head (ClientSpec.after_additions prev (entry :: entries)) = last (entry :: entries).
Proof.
  assert (ClientSpec.after_additions prev (entry :: entries) =
            take 5 (reverse (entry :: entries) ++ prev)) as ->.
  { change (ClientSpec.after_additions (take 5 (entry :: prev)) entries =
            take 5 (reverse (entry :: entries) ++ prev)).
    rewrite after_additions_take, reverse_cons, <- app_assoc. done. }
  split_and!; [done|rewrite length_take; lia|].
  rewrite <- head_reverse.
  destruct (reverse (entry :: entries)) as [|x l] eqn:E; [|done].
  apply (f_equal length) in E. rewrite length_reverse in E. done.
Qed.

Lemma length_accepted_medium :
  Part000Spec.length_accepted "medium" = true ∧ ServerSpec.length_accepted "medium" = true.
Proof. split; reflexivity. Qed.

(** A request of the form that is not validated lacks a url or has a
    language that the check refuses: its length key is always medium. *)
Lemma form_rejection (st : Client.State) (w : World) :
  Part000Spec.validated (Client.request_body st) = None →
  ∃ message,
    message ∈ ["URL is required"; "Invalid language selected"] ∧
    Part000.summarize (Client.request_body st) w St0 = rejection message ∧
    Server.summarize (Client.request_body st) w St0 = rejection message.
Proof.
  intros Hv. pose proof (rejected_request_run _ w Hv) as H. cbn zeta in H.
  unfold Part000Spec.validated in Hv.
  destruct (url_of (Client.request_body st)) as [url|].
  - rewrite bool_decide_eq_false_2 in H by done.
    destruct (Part000Spec.language_accepted _).
    + change (summaryLength_of (Client.request_body st)) with "medium" in Hv.
      by rewrite (proj1 length_accepted_medium) in Hv.
    + eexists. split; [|exact H]. rewrite !elem_of_cons. auto.
  - rewrite bool_decide_eq_true_2 in H by done.
    eexists. split; [|exact H]. rewrite !elem_of_cons. auto.
Qed.

Lemma part000_form_outcome : ClientSpec.outcome Part000.summarize.
Proof.
  intros w st now. unfold Client.served.
  destruct (Part000Spec.validated (Client.request_body st)) as [url|] eqn:Hv.
  - destruct (part000_validated_response _ w url Hv) as (r & -> & Hr).
    exists r. split; [done|]. cbn zeta. split; [done|].
    destruct Hr as [->|[[details ->]|[s ->]]].
    + right; left. eexists. split_and!; [reflexivity|rewrite !elem_of_cons; auto|reflexivity..].
    + right; right. by exists details.
    + left. by exists s.
  - destruct (form_rejection st w Hv) as (message & Hm & -> & _).
    eexists. split; [reflexivity|]. cbn zeta. split; [done|].
    right; left. exists message.
    rewrite !elem_of_cons, elem_of_nil in Hm.
    destruct Hm as [->|[->|[]]]; (split_and!; [reflexivity|rewrite !elem_of_cons; auto|reflexivity..]).
Qed.

Lemma server_form_outcome : ClientSpec.outcome Server.summarize.
Proof.
  intros w st now. unfold Client.served.
  destruct (Part000Spec.validated (Client.request_body st)) as [url|] eqn:Hv.
  - rewrite <- validated_agree in Hv.
    destruct (server_validated_response _ w url Hv) as (r & -> & Hr).
    exists r. split; [done|]. cbn zeta. split; [done|].
    destruct Hr as [[details ->]|[content ->]].
    + right; right. by exists details.
    + left. by eexists.
  - destruct (form_rejection st w Hv) as (message & Hm & _ & ->).
    eexists. split; [reflexivity|]. cbn zeta. split; [done|].
    right; left. exists message.
    rewrite !elem_of_cons, elem_of_nil in Hm.
    destruct Hm as [->|[->|[]]]; (split_and!; [reflexivity|rewrite !elem_of_cons; auto|reflexivity..]).
Qed.

(** X12. Whatever the state of the form and the world, a submission to
    either variant of the server is answered by one response, after which
    the form is no longer loading and shows either the summary of a 200,
    which it also puts first in the recent list, or, with the summary
    cleared and the recent list untouched, the error string of the
    response: "URL is required", "Invalid language selected" or "Could not
    extract article content" for a 400, and "Failed to generate summary"
    for every 500, whose details it never shows.  "Invalid summary length
    selected" cannot occur, since the form sends no summaryLength. *)
Theorem form_shows_summary_or_error :
  ClientSpec.outcome Part000.summarize ∧ ClientSpec.outcome Server.summarize.
Proof. split; [exact part000_form_outcome|exact server_form_outcome]. Qed.

(** ** The API key *)

Section api_key.
Import Js Setup.

Lemma strip_prefix_ci_app p pre rest :
  map lower pre = p → strip_prefix_ci p (pre ++ rest) = Some rest.
Proof.
  revert p. induction pre as [|b pre IH]; intros p <-; simpl; [done|].
  rewrite Nat.eqb_refl. by apply IH.
Qed.

Lemma strip_prefix_ci_Some p bs rest :
  strip_prefix_ci p bs = Some rest →
  ∃ pre, bs = (pre ++ rest)%list ∧ map lower pre = p.
Proof.
  revert bs. induction p as [|x p IH]; intros bs; simpl.
  - intros [= ->]. by exists [].
  - destruct bs as [|b bs]; [done|].
    destruct (Nat.eqb_spec x (lower b)) as [->|Hne]; [|done].
    intros (pre & -> & <-)%IH. by exists (b :: pre).
Qed.

(** A white space character in front of any bytes is what [strip_any]
    removes: no other pattern of the table opens the same bytes. *)
Lemma strip_any_white_space space rest :
  space ∈ white_space → strip_any white_space (space ++ rest) = Some rest.
Proof.
  unfold white_space. intros H.
  repeat (apply elem_of_cons in H as [->|H]; [reflexivity|]).
  by apply elem_of_nil in H.
Qed.

(** Trimming after the white space at the front is gone gives the same
    result. *)
Lemma trim_after_trim_front bs :
  Forall (λ b, (b < 256)%nat) bs →
  trim (string_of_bytes (trim_front (length bs) white_space bs)) =
  string_of_bytes (trimmed_bytes bs).
Proof.
  intros Hb. rewrite trim_bytes. f_equal.
  set (front := trim_front (length bs) white_space bs).
  assert (Forall (λ b, (b < 256)%nat) front) as Hfb.
  { destruct (trim_front_suffix (length bs) white_space bs) as [pre Hpre].
    fold front in Hpre. rewrite Hpre in Hb. by apply Forall_app in Hb as [_ Hb]. }
  rewrite (bytes_of_string_of_bytes _ Hfb).
  unfold trimmed_bytes. fold front.
  assert (strip_any white_space front = None) as Hf
    by (by apply trim_front_done; [apply white_space_nonempty|]).
  by rewrite (trim_front_fixed _ _ _ Hf).
Qed.

(** X13. A key stored as [Bearer], in any letter case, followed by a
    white space character and the key proper is read as the key proper,
    trimmed: the prefix and all white space around the key are dropped. *)
Theorem apiKey_drops_bearer_prefix prefix space key :
  map lower (bytes_of_string prefix) = bearer →
  bytes_of_string space ∈ white_space →
  apiKey (Some (prefix +:+ space +:+ key)) = Some (trim key).
Proof.
  intros Hp Hs. unfold apiKey. simpl. f_equal.
  rewrite !bytes_of_string_app. unfold replace_bearer.
  rewrite (strip_prefix_ci_app _ _ _ Hp), (strip_any_white_space _ _ Hs).
  rewrite trim_after_trim_front by apply bytes_of_string_bounded.
  by rewrite trim_bytes.
Qed.

Lemma apiKey_drops_bearer_prefix_witness :
  apiKey (Some ("BEARER" +:+ " " +:+ "  sk-test ")) = Some (trim "  sk-test ").
Proof.
  apply (apiKey_drops_bearer_prefix "BEARER" " " "  sk-test ").
  - reflexivity.
  - apply (bool_decide_unpack _). vm_compute. exact I.
Defined.

(** X14. Whatever value the variable holds, the key read from it has
    no white space at its start or end, and when the value does not open
    with [Bearer] the key is the value trimmed. *)
Theorem apiKey_is_trimmed value :
  ∃ key,
    apiKey (Some value) = Some key ∧
    trim key = key ∧
    (strip_prefix_ci bearer (bytes_of_string value) = None → key = trim value).
Proof.
  eexists. split_and!; [reflexivity|apply trim_idempotent|].
  intros H. unfold replace_bearer. by rewrite H, string_of_bytes_of_string.
Qed.

End api_key.

Lemma apiKey_is_trimmed_witness :
  Setup.apiKey (Some " sk-test ") = Some (Js.trim " sk-test ").
Proof.
  destruct (apiKey_is_trimmed " sk-test ") as (key & Hkey & _ & Hvalue).
  rewrite Hkey. f_equal. apply Hvalue. reflexivity.
Defined.
(** ** The two helpers *)

(** X15. [extractArticleContent] logs exactly one fetch, of the URL it is
    given, whatever happens, and sends nothing; whatever goes wrong in
    the fetch or the parser, the message it throws is its own fixed
    message, not the underlying one.  When it returns, [Part000] gives
    the text of the article as it is, or the empty string when no article
    was found, and [Server] gives the text trimmed. *)
Theorem extractArticleContent_contract url w st :
  (∃ out,
     Part000.extractArticleContent url w st = (out, log_call (AxiosGet url) st) ∧
     match out with
     | Throw message => message = "Failed to extract article content"
     | Normal text =>
         ∃ data, axios_get w (calls st) url = inr data ∧
                 (readability_parse w data = Article text ∨
                  readability_parse w data = NoArticle ∧ text = "")
     end) ∧
  (∃ out,
     Server.extractArticleContent url w st = (out, log_call (AxiosGet url) st) ∧
     match out with
     | Throw message => message = extract_failed
     | Normal text =>
         Js.trim text = text ∧
         ∃ data raw, axios_get w (calls st) url = inr data ∧
                     readability_parse w (remove_unwanted w data) = Article raw ∧
                     text = Js.trim raw
     end).
Proof.
  split.
  - rewrite extract_run. eexists. split; [reflexivity|].
    destruct (axios_get w (calls st) url) as [e|data]; [done|].
    destruct (readability_parse w data) as [e| |text] eqn:E; [done| |]; eauto.
  - rewrite server_extract_run. eexists. split; [reflexivity|].
    destruct (axios_get w (calls st) url) as [e|data]; [done|].
    destruct (readability_parse w _) as [e| |text] eqn:E; [done..|].
    split; [apply trim_idempotent|eauto].
Qed.

(** X16. For a language key that passes the language check,
    [translateText] sends no response and either makes no call and
    returns the text it was given, or makes exactly one call and then
    returns the content the backend answered or, when the backend
    rejected the call, throws "Failed to translate the summary" in place
    of the backend's message. *)
Theorem translateText_contract text language w st :
  Part000Spec.language_accepted language = true →
  (Part000.translateText text language w st = (Normal text, st)) ∨
  (∃ req,
     calls (snd (Part000.translateText text language w st)) = (calls st ++ [ChatCreate req])%list ∧
     sent (snd (Part000.translateText text language w st)) = sent st ∧
     match chat_completions_create w (calls st) req with
     | inl _ => fst (Part000.translateText text language w st) =
                  Throw "Failed to translate the summary"
     | inr translated => fst (Part000.translateText text language w st) = Normal translated
     end).
Proof.
  intros Hl. destruct (language_accepted_cases _ Hl) as [[cfg Hc]|Hi].
  - rewrite (translateText_own _ _ _ _ _ Hc).
    destruct (Part000.translationPrompt cfg) as [prompt|]; [|by left].
    right. exists (Part000.translation_request prompt text). split_and!; [done..|].
    by destruct (chat_completions_create w (calls st) _).
  - left. by apply translateText_inherited.
Qed.

Lemma translateText_contract_witness :
  let run := Part000.translateText (Some "- Rain is expected") "german" Sample.newsroom St0 in
  run = (Normal (Some "- Rain is expected"), St0) ∨
  (∃ req,
     calls (snd run) = (calls St0 ++ [ChatCreate req])%list ∧
     sent (snd run) = sent St0 ∧
     match chat_completions_create Sample.newsroom (calls St0) req with
     | inl _ => fst run = Throw "Failed to translate the summary"
     | inr translated => fst run = Normal translated
     end).
Proof.
  apply (translateText_contract (Some "- Rain is expected") "german" Sample.newsroom St0).
  reflexivity.
Defined.
